(** * Sequence generator: arithmetic and geometric sequences

    A shallow embedding of [src/app.py] and [src/appy.py].  The two
    generators are duck-typed Python functions: they only use [+], [*]
    with an [int] left operand, and [**] with an [int] exponent.  The
    embedding therefore states them once over an interface of numbers and
    instantiates it twice:

    - [Float64]: IEEE 754 binary64, the values [st.number_input] hands
      to the generators in the application;
    - [Exact]: exact rational arithmetic (Python's [fractions.Fraction]).

    Python exceptions are modelled by an error result. *)

From Stdlib Require Import ZArith QArith List String Ascii Bool Lia.
From Stdlib Require Import SpecFloat DecimalString Qpower.
Import ListNotations.

Local Open Scope Z_scope.

(** ** Python results: a value or a raised exception *)

Inductive exn : Type :=
| OverflowError
| ValueError
| ZeroDivisionError
| IndexError.

Inductive result (A : Type) : Type :=
| Ok (a : A)
| Raise (e : exn).

Arguments Ok {A} a.
Arguments Raise {A} e.

Definition bind {A B : Type} (r : result A) (k : A -> result B) : result B :=
  match r with
  | Ok a => k a
  | Raise e => Raise e
  end.

Declare Scope py_scope.
Delimit Scope py_scope with py.
Notation "x <- c ;; k" := (bind c (fun x => k))
  (at level 61, c at next level, right associativity) : py_scope.
Local Open Scope py_scope.

(** [range(n)]: the integers [0, 1, ..., n-1]; empty when [n <= 0]. *)
Definition range (n : Z) : list Z :=
  map Z.of_nat (seq 0 (Z.to_nat n)).

(** [for x in xs: s = body(s, x)], where the body may raise. *)
Fixpoint for_each {A S : Type} (body : S -> A -> result S)
    (xs : list A) (s : S) : result S :=
  match xs with
  | [] => Ok s
  | x :: xs' => s' <- body s x ;; for_each body xs' s'
  end.

(** ** The numbers the program computes with

    The operations are the ones the source applies to its terms:
    - [py_add x y] is [x + y];
    - [py_of_int i] is the coercion of the [int] operand of [i * x];
    - [py_mul x y] is [x * y];
    - [py_pow x i] is [x ** i] for an [int] exponent, which may raise;
    - [py_int x] is [int(x)], which may raise;
    - [py_eqb_int x k] is [x == k] for an [int] [k];
    - [py_format_2f x] is [f"{x:.2f}"]. *)
Class PyNumber (T : Type) : Type := {
  py_add : T -> T -> T;
  py_mul : T -> T -> T;
  py_of_int : Z -> T;
  py_pow : T -> Z -> result T;
  py_int : T -> result Z;
  py_eqb_int : T -> Z -> bool;
  py_format_2f : T -> string
}.

(** ** Decimal rendering shared by the two instances *)

(** [str(k)] for an [int] [k]. *)
Definition str_int (k : Z) : string :=
  NilZero.string_of_int (Z.to_int k).

(** The integer nearest to [num / den] ([0 <= num], [0 < den]), ties going
    to the even neighbour: the rounding of the [.2f] presentation type. *)
Definition round_half_even (num den : Z) : Z :=
  let q := num / den in
  let r := num mod den in
  match 2 * r ?= den with
  | Lt => q
  | Eq => if Z.even q then q else q + 1
  | Gt => q + 1
  end.

Definition digit (d : Z) : ascii :=
  ascii_of_nat (48 + Z.to_nat d).

(** [f"{x:.2f}"] for [x = (-1)^neg * num / den]: the sign, the integer
    part, a point and two digits. *)
Definition format_2f_ratio (neg : bool) (num den : Z) : string :=
  let hundredths := round_half_even (100 * num) den in
  ((if neg then "-" else "") ++ str_int (hundredths / 100) ++ "."
   ++ String (digit (hundredths / 10 mod 10))
        (String (digit (hundredths mod 10)) ""))%string.

(** ** IEEE 754 binary64: Python's [float] *)
Module Float64.
Definition prec : Z := 53.
Definition emax : Z := 1024.

Definition float : Type := spec_float.

Definition add : float -> float -> float := SFadd prec emax.
Definition mul : float -> float -> float := SFmul prec emax.

(** [x == y] on floats. *)
Definition eqb : float -> float -> bool := SFeqb.

(** [float(i)], rounding to nearest even. CPython raises
    [OverflowError] where this rounds to an infinity, which needs
    [2^1024 <= |i|]; no loop index of the program gets there. *)
Definition of_int (i : Z) : float := binary_normalize prec emax i 0 false.

Definition is_finite (x : float) : bool :=
  match x with
  | S754_zero _ | S754_finite _ _ _ => true
  | S754_infinity _ | S754_nan => false
  end.

(** A finite float in the format: its mantissa and exponent are the
    canonical ones of binary64. *)
Definition is_float64 (x : float) : bool :=
  is_finite x && valid_binary prec emax x.

(** [x ** i] for a float [x] and an [int] [i], after CPython's
    [float_pow]: the special cases first, then the power itself, here
    the exact power rounded to nearest even (the C library's [pow] up to
    its last-digit error). A result that overflows the format raises
    [OverflowError]; one that underflows is a zero. *)
Definition pow (x : float) (i : Z) : result float :=
  if i =? 0 then Ok (of_int 1)
  else
    match x with
    | S754_nan => Ok S754_nan
    | S754_infinity s =>
        if 0 <? i then Ok (S754_infinity (s && Z.odd i))
        else Ok (S754_zero (s && Z.odd i))
    | S754_zero s =>
        if i <? 0 then Raise ZeroDivisionError
        else Ok (S754_zero (s && Z.odd i))
    | S754_finite s m e =>
        let k := Z.abs i in
        let exact := S754_finite false (m ^ Z.to_pos k) (e * k) in
        let magnitude :=
          if 0 <? i
          then binary_normalize prec emax (Z.pos (m ^ Z.to_pos k)) (e * k) false
          else SFdiv prec emax (S754_finite false 1 0) exact in
        match magnitude with
        | S754_infinity _ => Raise OverflowError
        | _ => Ok (if s && Z.odd i then SFopp magnitude else magnitude)
        end
    end.

(** [int(x)]: truncation towards zero. *)
Definition to_int (x : float) : result Z :=
  match x with
  | S754_nan => Raise ValueError
  | S754_infinity _ => Raise OverflowError
  | S754_zero _ => Ok 0
  | S754_finite s m e =>
      let magnitude :=
        if 0 <=? e then Z.pos m * 2 ^ e else Z.pos m / 2 ^ (- e) in
      Ok (if s then - magnitude else magnitude)
  end.

(** [x == k] for an [int] [k]: CPython compares the exact values. *)
Definition eqb_int (x : float) (k : Z) : bool :=
  match x with
  | S754_nan | S754_infinity _ => false
  | S754_zero _ => k =? 0
  | S754_finite s m e =>
      let v := if s then Z.neg m else Z.pos m in
      if 0 <=? e then k =? v * 2 ^ e else k * 2 ^ (- e) =? v
  end.

(** [f"{x:.2f}"]. *)
Definition format_2f (x : float) : string :=
  match x with
  | S754_nan => "nan"
  | S754_infinity s => if s then "-inf" else "inf"
  | S754_zero s => format_2f_ratio s 0 1
  | S754_finite s m e =>
      if 0 <=? e then format_2f_ratio s (Z.pos m * 2 ^ e) 1
      else format_2f_ratio s (Z.pos m) (2 ^ (- e))
  end.

#[global] Instance number : PyNumber float := {
  py_add := add;
  py_mul := mul;
  py_of_int := of_int;
  py_pow := pow;
  py_int := to_int;
  py_eqb_int := eqb_int;
  py_format_2f := format_2f
}.

(** The float nearest to the fraction [num / den], for [0 < den]: how
    the examples write literals such as [1.5]. *)
Definition of_ratio (num den : Z) : float :=
  match num with
  | 0 => S754_zero false
  | Z.pos p => SFdiv prec emax (S754_finite false p 0) (S754_finite false (Z.to_pos den) 0)
  | Z.neg p => SFdiv prec emax (S754_finite true p 0) (S754_finite false (Z.to_pos den) 0)
  end.
End Float64.

(** ** Exact rational arithmetic: Python's [fractions.Fraction] *)
Module Exact.
Definition pow (x : Q) (i : Z) : result Q :=
  if (i <? 0) && Qeq_bool x 0 then Raise ZeroDivisionError
  else Ok (Qpower x i).

Definition to_int (x : Q) : result Z :=
  Ok (Z.quot (Qnum x) (Z.pos (Qden x))).

Definition eqb_int (x : Q) (k : Z) : bool := Qeq_bool x (inject_Z k).

Definition format_2f (x : Q) : string :=
  format_2f_ratio (Qnum x <? 0) (Z.abs (Qnum x)) (Z.pos (Qden x)).

#[global] Instance number : PyNumber Q := {
  py_add := Qplus;
  py_mul := Qmult;
  py_of_int := inject_Z;
  py_pow := pow;
  py_int := to_int;
  py_eqb_int := eqb_int;
  py_format_2f := format_2f
}.
End Exact.

(** [sum(xs)]: the accumulator starts at the [int] [0] and the elements
    are added from left to right. This is [sum] on exact numbers, and on
    floats up to CPython 3.11. From version 3.12 on CPython adds floats
    with a compensated accumulator, whose result can differ from this
    fold in the last bits and at the edge of the float range; the two
    agree when every addition is exact and when the running total
    overflows, and on floats the properties below evaluate the fold on
    such sums only. *)
Definition py_sum {T : Type} `{PyNumber T} (xs : list T) : T :=
  fold_left py_add xs (py_of_int 0).

(** [", ".join(parts)]. *)
Fixpoint join (sep : string) (parts : list string) : string :=
  match parts with
  | [] => ""%string
  | [p] => p
  | p :: rest => (p ++ sep ++ join sep rest)%string
  end.

(** [[f(x) for x in xs]], where [f] may raise. *)
Fixpoint comprehension {A B : Type} (f : A -> result B) (xs : list A)
    : result (list B) :=
  match xs with
  | [] => Ok []
  | x :: xs' => y <- f x ;; ys <- comprehension f xs' ;; Ok (y :: ys)
  end.

(** [xs[-1]]. *)
Definition last_item {A : Type} (xs : list A) : result A :=
  match rev xs with
  | [] => Raise IndexError
  | x :: _ => Ok x
  end.

(** ** The page: what [main] shows

    [main] talks to the page through [st] calls. The model keeps, in the
    order they are made, the calls of [st.header], of [st.error] (of the
    validation and of the exception handler), of [st.success], of
    [st.columns] for the rows of terms, of [st.metric] and of [st.code].
    It leaves out [st.set_page_config], [st.title], [st.markdown],
    [st.latex], the input widgets ([st.radio], [st.number_input]), whose
    values are the [inputs] of [main], and the two [st.columns(3)] that
    lay out the input widgets and the closing metrics. The calls left
    out take fixed texts or the inputs written as text, and are taken not
    to raise: a page of the model is the page of the program restricted
    to the calls kept. *)
Inductive sequence_kind : Type := Arithmetic | Geometric.

Inductive metric_label : Type :=
| term_label (index : Z)
| First_Term
| Last_Term
| Sum_of_Terms.

Inductive metric_value (T : Type) : Type :=
| text_value (s : string)
| int_value (k : Z)
| number_value (x : T).

Arguments text_value {T} s.
Arguments int_value {T} k.
Arguments number_value {T} x.

Inductive st_call (T : Type) : Type :=
| st_header (body : string)
| st_error (body : string)
| st_error_exception (prefix : string) (e : exn)
| st_success (body : string)
| st_columns (spec : nat)
| st_metric (label : metric_label) (value : metric_value T)
| st_code (body : string).

Arguments st_header {T} body.
Arguments st_error {T} body.
Arguments st_error_exception {T} prefix e.
Arguments st_success {T} body.
Arguments st_columns {T} spec.
Arguments st_metric {T} label value.
Arguments st_code {T} body.

(** A computation of the page: the calls made so far, and a value or the
    exception that stopped it. *)
Definition page (T A : Type) : Type := list (st_call T) * result A.

Definition page_ret {T A : Type} (a : A) : page T A := ([], Ok a).

Definition page_bind {T A B : Type} (m : page T A) (k : A -> page T B)
    : page T B :=
  match m with
  | (calls, Ok a) => let (calls', r) := k a in (calls ++ calls', r)
  | (calls, Raise e) => (calls, Raise e)
  end.

Definition show {T : Type} (c : st_call T) : page T unit := ([c], Ok tt).

Definition eval {T A : Type} (r : result A) : page T A := ([], r).

(** [try: body except Exception as e: handler(e)]: what the body showed
    before it raised stays on the page. *)
Definition try_except {T : Type} (body : page T unit)
    (handler : exn -> page T unit) : page T unit :=
  match body with
  | (calls, Ok tt) => (calls, Ok tt)
  | (calls, Raise e) => let (calls', r) := handler e in (calls ++ calls', r)
  end.

Declare Scope page_scope.
Delimit Scope page_scope with page.
Notation "x <- c ;; k" := (page_bind c (fun x => k))
  (at level 61, c at next level, right associativity) : page_scope.
Notation "c ;; k" := (page_bind c (fun _ => k))
  (at level 61, right associativity) : page_scope.

Fixpoint page_for_each {T A : Type} (body : A -> page T unit) (xs : list A)
    : page T unit :=
  match xs with
  | [] => page_ret tt
  | x :: xs' => (body x ;; page_for_each body xs')%page
  end.

(** [range(0, n, step)] for a positive [step]. *)
Definition range_step (n step : nat) : list nat :=
  map (fun k => (k * step)%nat) (seq 0 ((n + step - 1) / step)).

(** [enumerate(xs)]. *)
Definition enumerate {A : Type} (xs : list A) : list (nat * A) :=
  combine (seq 0 (List.length xs)) xs.

(** ** [src/appy.py] *)
Module appy.

(** The values of the input widgets of [main]. *)
Record inputs (T : Type) : Type := {
  sequence_type : sequence_kind;
  first_term : T;
  second_param : T;
  num_terms : Z
}.

Arguments sequence_type {T} i.
Arguments first_term {T} i.
Arguments second_param {T} i.
Arguments num_terms {T} i.

Section Program.
Context {T : Type} `{PyNumber T}.

(** [generate_arithmetic_sequence], lines 3-19. *)
Definition generate_arithmetic_sequence
    (first_term common_difference : T) (num_terms : Z) : result (list T) :=
  let sequence := [] in
  for_each
    (fun sequence i =>
       let term := py_add first_term (py_mul (py_of_int i) common_difference) in
       Ok (sequence ++ [term]))
    (range num_terms) sequence.

(** [generate_geometric_sequence], lines 21-37. *)
Definition generate_geometric_sequence
    (first_term common_ratio : T) (num_terms : Z) : result (list T) :=
  let sequence := [] in
  for_each
    (fun sequence i =>
       power <- py_pow common_ratio i ;;
       let term := py_mul first_term power in
       Ok (sequence ++ [term]))
    (range num_terms) sequence.

(** The formatting of one term, lines 146-149 and the expression of
    line 158:
    [str(int(term)) if term == int(term) else f"{term:.2f}"]. *)
Definition format_number (term : T) : result string :=
  k <- py_int term ;;
  if py_eqb_int term k
  then k' <- py_int term ;; Ok (str_int k')
  else Ok (py_format_2f term).

(** [sequence_str], line 158. *)
Definition sequence_str (sequence : list T) : result string :=
  parts <- comprehension format_number sequence ;;
  Ok (join ", " parts).

(** The rows of ten terms, lines 135-154. *)
Definition show_terms (sequence : list T) : page T unit :=
  let terms_per_row := 10%nat in
  page_for_each
    (fun i =>
       let row_terms := firstn terms_per_row (skipn i sequence) in
       (show (st_columns (List.length row_terms)) ;;
        page_for_each
          (fun '(j, term) =>
             term_str <- eval (format_number term) ;;
             show (st_metric (term_label (Z.of_nat (i + j + 1)))
                     (text_value term_str)))
          (enumerate row_terms))%page)
    (range_step (List.length sequence) terms_per_row).

(** The value of the "Sum of Terms" metric, line 173. *)
Definition sum_value (sequence_sum : T) : result (metric_value T) :=
  k <- py_int sequence_sum ;;
  if negb (py_eqb_int sequence_sum k)
  then Ok (text_value (py_format_2f sequence_sum))
  else k' <- py_int sequence_sum ;; Ok (int_value k').

(** [main], lines 39-214, over the two generators it calls. *)
Definition main_with
    (generate_arithmetic generate_geometric : T -> T -> Z -> result (list T))
    (w : inputs T) : list (st_call T) :=
  let first_term := first_term w in
  let second_param := second_param w in
  let num_terms := num_terms w in
  fst
    (show (st_header "Input Parameters") ;;
     if num_terms <=? 0 then
       show (st_error "❌ Number of terms must be a positive integer!")
     else if num_terms >? 1000 then
       show (st_error "❌ Number of terms cannot exceed 1000!")
     else
       show (st_header "Generated Sequence") ;;
       let sequence_name :=
         match sequence_type w with
         | Arithmetic => "arithmetic"
         | Geometric => "geometric"
         end%string in
       try_except
         (sequence <-
            eval match sequence_type w with
                 | Arithmetic =>
                     generate_arithmetic first_term second_param num_terms
                 | Geometric =>
                     generate_geometric first_term second_param num_terms
                 end ;;
          show (st_success ("✅ Successfully generated " ++ str_int num_terms
                            ++ " " ++ sequence_name ++ " terms!")) ;;
          show_terms sequence ;;
          sequence_str <- eval (sequence_str sequence) ;;
          show (st_code ("[" ++ sequence_str ++ "]")) ;;
          show (st_metric First_Term (number_value first_term)) ;;
          last <- eval (last_item sequence) ;;
          show (st_metric Last_Term (number_value last)) ;;
          let sequence_sum := py_sum sequence in
          value <- eval (sum_value sequence_sum) ;;
          show (st_metric Sum_of_Terms value))
         (fun e =>
            show (st_error_exception
                    ("❌ An error occurred while generating the "
                     ++ sequence_name ++ " sequence: ") e)))%page.

Definition main : inputs T -> list (st_call T) :=
  main_with generate_arithmetic_sequence generate_geometric_sequence.
End Program.
End appy.

(** ** [src/app.py] *)
Module app.

(** The values of the input widgets of [main]. *)
Record inputs (T : Type) : Type := {
  first_term : T;
  common_difference : T;
  num_terms : Z
}.

Arguments first_term {T} i.
Arguments common_difference {T} i.
Arguments num_terms {T} i.

Section Program.
Context {T : Type} `{PyNumber T}.

(** [generate_arithmetic_sequence], lines 3-19. *)
Definition generate_arithmetic_sequence
    (first_term common_difference : T) (num_terms : Z) : result (list T) :=
  let sequence := [] in
  for_each
    (fun sequence i =>
       let term := py_add first_term (py_mul (py_of_int i) common_difference) in
       Ok (sequence ++ [term]))
    (range num_terms) sequence.

(** The formatting of one term, lines 103-106 and the expression of
    line 115. *)
Definition format_number (term : T) : result string :=
  k <- py_int term ;;
  if py_eqb_int term k
  then k' <- py_int term ;; Ok (str_int k')
  else Ok (py_format_2f term).

(** [sequence_str], line 115. *)
Definition sequence_str (sequence : list T) : result string :=
  parts <- comprehension format_number sequence ;;
  Ok (join ", " parts).

(** The rows of ten terms, lines 92-111. *)
Definition show_terms (sequence : list T) : page T unit :=
  let terms_per_row := 10%nat in
  page_for_each
    (fun i =>
       let row_terms := firstn terms_per_row (skipn i sequence) in
       (show (st_columns (List.length row_terms)) ;;
        page_for_each
          (fun '(j, term) =>
             term_str <- eval (format_number term) ;;
             show (st_metric (term_label (Z.of_nat (i + j + 1)))
                     (text_value term_str)))
          (enumerate row_terms))%page)
    (range_step (List.length sequence) terms_per_row).

(** The value of the "Sum of Terms" metric, line 130. *)
Definition sum_value (sequence_sum : T) : result (metric_value T) :=
  k <- py_int sequence_sum ;;
  if negb (py_eqb_int sequence_sum k)
  then Ok (text_value (py_format_2f sequence_sum))
  else k' <- py_int sequence_sum ;; Ok (int_value k').

(** [main], lines 21-151, over the generator it calls. *)
Definition main_with
    (generate_arithmetic : T -> T -> Z -> result (list T))
    (w : inputs T) : list (st_call T) :=
  let first_term := first_term w in
  let common_difference := common_difference w in
  let num_terms := num_terms w in
  fst
    (show (st_header "Input Parameters") ;;
     if num_terms <=? 0 then
       show (st_error "❌ Number of terms must be a positive integer!")
     else if num_terms >? 1000 then
       show (st_error "❌ Number of terms cannot exceed 1000!")
     else
       show (st_header "Generated Sequence") ;;
       try_except
         (sequence <-
            eval (generate_arithmetic first_term common_difference num_terms) ;;
          show (st_success ("✅ Successfully generated " ++ str_int num_terms
                            ++ " terms!")) ;;
          show_terms sequence ;;
          sequence_str <- eval (sequence_str sequence) ;;
          show (st_code ("[" ++ sequence_str ++ "]")) ;;
          show (st_metric First_Term (number_value first_term)) ;;
          last <- eval (last_item sequence) ;;
          show (st_metric Last_Term (number_value last)) ;;
          let sequence_sum := py_sum sequence in
          value <- eval (sum_value sequence_sum) ;;
          show (st_metric Sum_of_Terms value))
         (fun e =>
            show (st_error_exception
                    "❌ An error occurred while generating the sequence: " e)))%page.

Definition main : inputs T -> list (st_call T) :=
  main_with generate_arithmetic_sequence.
End Program.
End app.


(** * Vocabulary of the properties *)

(** The term computed by the body of the arithmetic loop at index [i]. *)
Definition arithmetic_term {T : Type} `{PyNumber T}
    (first_term common_difference : T) (i : Z) : T :=
  py_add first_term (py_mul (py_of_int i) common_difference).

(** The term computed by the body of the geometric loop at index [i]. *)
Definition geometric_term {T : Type} `{PyNumber T}
    (first_term common_ratio : T) (i : Z) : result T :=
  power <- py_pow common_ratio i ;; Ok (py_mul first_term power).

Definition is_digit (c : ascii) : bool :=
  ((48 <=? nat_of_ascii c) && (nat_of_ascii c <=? 57))%nat.

Fixpoint all_digits (s : string) : bool :=
  match s with
  | EmptyString => true
  | String c s' => is_digit c && all_digits s'
  end.

Definition digits (s : string) : bool :=
  negb (String.eqb s "") && all_digits s.

(** An integer literal: an optional minus sign and at least one digit,
    so no decimal point and no fractional part. *)
Definition integer_literal (s : string) : bool :=
  match s with
  | String "-" s' => digits s'
  | _ => digits s
  end.

(** A rendering with exactly two decimal digits: an integer literal, a
    point and two digits. *)
Definition two_decimals (s : string) : Prop :=
  exists w d1 d2,
    s = (w ++ "." ++ String d1 (String d2 ""))%string
    /\ integer_literal w = true /\ is_digit d1 = true /\ is_digit d2 = true.

(** A call of the page other than an [st.error] of the validation. *)
Definition not_st_error {T : Type} (c : st_call T) : Prop :=
  forall body, c <> st_error body.

(** The metrics of the terms among the calls of a page, in order. *)
Definition term_metrics {T : Type} (calls : list (st_call T)) : list (st_call T) :=
  filter (fun c => match c with
                   | st_metric (term_label _) _ => true
                   | _ => false
                   end) calls.

(** The numbers of columns of the rows of a page, in order. *)
Definition row_sizes {T : Type} (calls : list (st_call T)) : list nat :=
  flat_map (fun c => match c with
                     | st_columns k => [k]
                     | _ => []
                     end) calls.

(** The metric of the term of 0-based position [j]: its label is the
    1-based index and its value the rendering of the term. *)
Definition term_metric {T : Type} (j : nat) (part : string) : st_call T :=
  st_metric (term_label (Z.of_nat (j + 1))) (text_value part).

(** A call of the rows of terms: the columns of a row, or the metric of
    a term with its rendering. *)
Definition row_call {T : Type} (c : st_call T) : Prop :=
  match c with
  | st_columns _ => True
  | st_metric (term_label _) (text_value _) => True
  | _ => False
  end.

(** The page of a run stopped in the rows of terms: the success notice is
    on it, and so is the report of an [OverflowError] or of a
    [ValueError]; the sequence as text is not, and the only metrics are
    those of terms. *)
Definition stops_at_a_term {T : Type} (calls : list (st_call T)) : Prop :=
  (exists message, In (st_success message) calls)
  /\ (exists prefix e,
        In (st_error_exception prefix e) calls
        /\ (e = OverflowError \/ e = ValueError))
  /\ (forall body, ~ In (st_code body) calls)
  /\ (forall label value,
        In (st_metric label value) calls ->
        exists index, label = term_label index).

(** The page shows a sequence: the metrics of its terms are the
    renderings [parts], labelled 1, 2, ... in order; [st.code] is called
    with the bracketed list of the same renderings and with nothing else;
    the "First Term" metric holds [first] and the "Last Term" metric
    [last], and nothing else. *)
Definition shows_sequence {T : Type} (first last : T) (parts : list string)
    (calls : list (st_call T)) : Prop :=
  term_metrics calls = map (fun '(j, part) => term_metric j part) (enumerate parts)
  /\ (forall body,
        In (st_code body) calls <-> body = ("[" ++ join ", " parts ++ "]")%string)
  /\ (forall value,
        In (st_metric First_Term value) calls <-> value = number_value first)
  /\ (forall value,
        In (st_metric Last_Term value) calls <-> value = number_value last).

(** What the [try] block of [main] shows after the success notice: the
    rows of terms, the sequence as text, and the three closing metrics. *)
Definition rendering {T : Type} `{PyNumber T} (first_term : T)
    (sequence : list T) : page T unit :=
  (appy.show_terms sequence ;;
   sequence_str <- eval (appy.sequence_str sequence) ;;
   show (st_code ("[" ++ sequence_str ++ "]")) ;;
   show (st_metric First_Term (number_value first_term)) ;;
   last <- eval (last_item sequence) ;;
   show (st_metric Last_Term (number_value last)) ;;
   let sequence_sum := py_sum sequence in
   value <- eval (appy.sum_value sequence_sum) ;;
   show (st_metric Sum_of_Terms value))%page.

(** A call without the wording of its message: the two programs word the
    success notice and the report of an exception differently. *)
Definition without_wording {T : Type} (c : st_call T) : st_call T :=
  match c with
  | st_success _ => st_success ""
  | st_error_exception _ e => st_error_exception "" e
  | _ => c
  end.

(** The text a metric value is shown as, when it is a text or an [int]. *)
Definition value_text {T : Type} (v : metric_value T) : option string :=
  match v with
  | text_value s => Some s
  | int_value k => Some (str_int k)
  | number_value _ => None
  end.

(** * Properties *)

(** ** Loops over [range] *)

Lemma range_nonpositive (n : Z) : n <= 0 -> range n = [].
Proof.
  intros Hn. unfold range.
  replace (Z.to_nat n) with 0%nat by lia. reflexivity.
Qed.

Lemma range_length (n : Z) : List.length (range n) = Z.to_nat n.
Proof. unfold range. now rewrite length_map, length_seq. Qed.

Lemma range_nth (n i : Z) :
  0 <= i < n -> nth_error (range n) (Z.to_nat i) = Some i.
Proof.
  intros Hi. unfold range.
  rewrite nth_error_map, nth_error_seq.
  destruct (Nat.ltb_spec (Z.to_nat i) (Z.to_nat n)) as [_ | Hge]; [| lia].
  cbn. f_equal. lia.
Qed.

Lemma range_In (n i : Z) : In i (range n) <-> 0 <= i < n.
Proof.
  unfold range. rewrite in_map_iff. split.
  - intros (k & <- & Hk). apply in_seq in Hk. lia.
  - intros Hi. exists (Z.to_nat i). split; [lia |]. apply in_seq. lia.
Qed.

Lemma for_each_ext {A S : Type} (body body' : S -> A -> result S)
    (xs : list A) (s : S) :
  (forall s x, body s x = body' s x) ->
  for_each body xs s = for_each body' xs s.
Proof.
  intros Hext. revert s. induction xs as [| x xs IH]; intros s; cbn.
  - reflexivity.
  - rewrite Hext. destruct (body' s x); cbn; auto.
Qed.

(** A loop that appends one computed item per element is a list
    comprehension. *)
Lemma for_each_append {A B : Type} (f : A -> result B) (xs : list A)
    (acc : list B) :
  for_each (fun sequence x => y <- f x ;; Ok (sequence ++ [y])) xs acc
  = (ys <- comprehension f xs ;; Ok (acc ++ ys)).
Proof.
  revert acc. induction xs as [| x xs IH]; intros acc; cbn.
  - now rewrite app_nil_r.
  - destruct (f x) as [y | e]; cbn; [| reflexivity].
    rewrite IH. destruct (comprehension f xs) as [ys | e]; cbn; [| reflexivity].
    now rewrite <- app_assoc.
Qed.

Lemma comprehension_total {A B : Type} (g : A -> B) (xs : list A) :
  comprehension (fun x => Ok (g x)) xs = Ok (map g xs).
Proof.
  induction xs as [| x xs IH]; cbn; [reflexivity |]. now rewrite IH.
Qed.

Lemma comprehension_ok {A B : Type} (f : A -> result B) (xs : list A) :
  (forall x, In x xs -> exists y, f x = Ok y) ->
  exists ys, comprehension f xs = Ok ys /\ Forall2 (fun x y => f x = Ok y) xs ys.
Proof.
  induction xs as [| x xs IH]; intros Hok; cbn.
  - exists []. auto.
  - destruct (Hok x (or_introl eq_refl)) as [y Hy].
    destruct IH as (ys & Hys & Hall); [intros; apply Hok; now right |].
    exists (y :: ys). rewrite Hy, Hys. cbn. auto.
Qed.

Lemma comprehension_raise {A B : Type} (f : A -> result B) (xs : list A)
    (x : A) (e : exn) :
  In x xs -> f x = Raise e -> exists e', comprehension f xs = Raise e'.
Proof.
  induction xs as [| x' xs IH]; intros Hin Hx; [contradiction |].
  cbn. destruct Hin as [-> | Hin].
  - rewrite Hx. now exists e.
  - destruct (f x') as [y | e0]; cbn; [| now exists e0].
    destruct (IH Hin Hx) as [e' ->]. now exists e'.
Qed.

Lemma comprehension_raises_only {A B : Type} (f : A -> result B)
    (xs : list A) (e0 e : exn) :
  (forall x e', In x xs -> f x = Raise e' -> e' = e0) ->
  comprehension f xs = Raise e -> e = e0.
Proof.
  induction xs as [| x xs IH]; intros Honly; cbn; [discriminate |].
  destruct (f x) as [y | e1] eqn:Hx; cbn.
  - destruct (comprehension f xs) as [ys | e2] eqn:Hxs; cbn; [discriminate |].
    intros [= <-]. apply IH; [| reflexivity].
    intros x' e' Hin. apply Honly. now right.
  - intros [= <-]. apply (Honly x); [now left | exact Hx].
Qed.

Lemma Forall2_nth_error {A B : Type} (R : A -> B -> Prop) (xs : list A)
    (ys : list B) (k : nat) (x : A) :
  Forall2 R xs ys -> nth_error xs k = Some x ->
  exists y, nth_error ys k = Some y /\ R x y.
Proof.
  intros Hall. revert k. induction Hall as [| x' y' xs ys Hxy _ IH]; intros k.
  - destruct k; discriminate.
  - destruct k as [| k]; cbn.
    + intros [= ->]. eauto.
    + apply IH.
Qed.

Section Generators.
Context {T : Type} `{PyNumber T}.

Lemma arithmetic_as_map (a d : T) (n : Z) :
  appy.generate_arithmetic_sequence a d n
  = Ok (map (arithmetic_term a d) (range n)).
Proof.
  unfold appy.generate_arithmetic_sequence.
  rewrite (for_each_ext _
             (fun sequence i =>
                y <- Ok (arithmetic_term a d i) ;; Ok (sequence ++ [y])))
    by reflexivity.
  now rewrite for_each_append, comprehension_total.
Qed.

Lemma app_arithmetic_as_map (a d : T) (n : Z) :
  app.generate_arithmetic_sequence a d n
  = Ok (map (arithmetic_term a d) (range n)).
Proof.
  unfold app.generate_arithmetic_sequence.
  rewrite (for_each_ext _
             (fun sequence i =>
                y <- Ok (arithmetic_term a d i) ;; Ok (sequence ++ [y])))
    by reflexivity.
  now rewrite for_each_append, comprehension_total.
Qed.

Lemma geometric_as_comprehension (a r : T) (n : Z) :
  appy.generate_geometric_sequence a r n
  = comprehension (geometric_term a r) (range n).
Proof.
  unfold appy.generate_geometric_sequence.
  rewrite (for_each_ext _
             (fun sequence i => y <- geometric_term a r i ;; Ok (sequence ++ [y]))).
  - rewrite for_each_append. now destruct (comprehension _ _).
  - intros s i. unfold geometric_term. now destruct (py_pow r i).
Qed.
End Generators.

Section GeneratorProperties.
Context {T : Type} `{PyNumber T}.

Lemma arithmetic_nth (a d : T) (n i : Z) :
  0 <= i < n ->
  nth_error (map (arithmetic_term a d) (range n)) (Z.to_nat i)
  = Some (arithmetic_term a d i).
Proof.
  intros Hi. now rewrite nth_error_map, range_nth.
Qed.

Lemma geometric_ok (a r : T) (n : Z) :
  (forall i, 0 <= i < n -> exists power, py_pow r i = Ok power) ->
  exists sequence,
    appy.generate_geometric_sequence a r n = Ok sequence
    /\ Forall2 (fun i term => geometric_term a r i = Ok term) (range n) sequence.
Proof.
  intros Hpow. rewrite geometric_as_comprehension.
  apply comprehension_ok. intros i Hi. apply range_In in Hi.
  destruct (Hpow i Hi) as [power Hp].
  exists (py_mul a power). unfold geometric_term. now rewrite Hp.
Qed.

Lemma geometric_raise (a r : T) (n i : Z) (e : exn) :
  0 <= i < n -> py_pow r i = Raise e ->
  exists e', appy.generate_geometric_sequence a r n = Raise e'.
Proof.
  intros Hi Hp. rewrite geometric_as_comprehension.
  apply comprehension_raise with (x := i) (e := e).
  - now apply range_In.
  - unfold geometric_term. now rewrite Hp.
Qed.

Lemma geometric_nth (a r : T) (n i : Z) (sequence : list T) :
  Forall2 (fun i term => geometric_term a r i = Ok term) (range n) sequence ->
  0 <= i < n ->
  exists power,
    py_pow r i = Ok power
    /\ nth_error sequence (Z.to_nat i) = Some (py_mul a power).
Proof.
  intros Hall Hi.
  destruct (Forall2_nth_error _ _ _ _ _ Hall (range_nth n i Hi))
    as (term & Hnth & Hterm).
  unfold geometric_term in Hterm.
  destruct (py_pow r i) as [power | e]; cbn in Hterm; [| discriminate].
  injection Hterm as <-. eauto.
Qed.
End GeneratorProperties.

(** C1. For every valid input (any first term [a] and common difference
    [d], [1 <= n <= 1000]) the arithmetic generator, in [appy.py] and in
    [app.py], returns a sequence of [n] elements whose element at 0-based
    index [i] is [a + i * d], for every [i] in [[0, n)]. *)
Theorem arithmetic_elements {T : Type} `{PyNumber T} (a d : T) (n i : Z) :
  1 <= n <= 1000 -> 0 <= i < n ->
  exists sequence,
    appy.generate_arithmetic_sequence a d n = Ok sequence
    /\ app.generate_arithmetic_sequence a d n = Ok sequence
    /\ List.length sequence = Z.to_nat n
    /\ nth_error sequence (Z.to_nat i)
       = Some (py_add a (py_mul (py_of_int i) d)).
Proof.
  intros _ Hi. exists (map (arithmetic_term a d) (range n)).
  rewrite arithmetic_as_map, app_arithmetic_as_map, length_map, range_length.
  repeat split. now apply arithmetic_nth.
Qed.

Lemma arithmetic_elements_witness :
  1 <= 4 <= 1000 /\ 0 <= 3 < 4 /\
  exists sequence,
    appy.generate_arithmetic_sequence (Float64.of_int 10) (Float64.of_int (-2)) 4
    = Ok sequence
    /\ app.generate_arithmetic_sequence (Float64.of_int 10) (Float64.of_int (-2)) 4
       = Ok sequence
    /\ List.length sequence = Z.to_nat 4
    /\ nth_error sequence (Z.to_nat 3)
       = Some (py_add (Float64.of_int 10)
                 (py_mul (py_of_int 3) (Float64.of_int (-2)))).
Proof.
  split; [lia |]. split; [lia |].
  apply (arithmetic_elements (Float64.of_int 10) (Float64.of_int (-2)) 4 3); lia.
Defined.

(** C2, as amended. For every valid input ([1 <= n <= 1000]) for which
    every power [r ** i], [0 <= i < n], is computed without raising, the
    geometric generator returns a sequence of [n] elements whose element
    at 0-based index [i] is [a * r ** i]; the ratio is not inspected, so a
    zero or negative ratio takes the same path. *)
Theorem geometric_elements {T : Type} `{PyNumber T} (a r : T) (n : Z) :
  1 <= n <= 1000 ->
  (forall i, 0 <= i < n -> exists power, py_pow r i = Ok power) ->
  exists sequence,
    appy.generate_geometric_sequence a r n = Ok sequence
    /\ List.length sequence = Z.to_nat n
    /\ forall i, 0 <= i < n ->
         exists power,
           py_pow r i = Ok power
           /\ nth_error sequence (Z.to_nat i) = Some (py_mul a power).
Proof.
  intros _ Hpow. destruct (geometric_ok a r n Hpow) as (sequence & Hgen & Hall).
  exists sequence. split; [exact Hgen |]. split.
  - rewrite <- (Forall2_length Hall). apply range_length.
  - intros i Hi. now apply geometric_nth with (n := n).
Qed.

Lemma small_index (i : Z) : 0 <= i < 5 -> In i [0; 1; 2; 3; 4].
Proof. intros Hi. cbn. lia. Qed.

Lemma geometric_elements_witness :
  1 <= 5 <= 1000
  /\ (forall i, 0 <= i < 5 -> exists power, py_pow (Float64.of_int (-2)) i = Ok power)
  /\ exists sequence,
       appy.generate_geometric_sequence (Float64.of_int 3) (Float64.of_int (-2)) 5
       = Ok sequence
       /\ List.length sequence = Z.to_nat 5
       /\ forall i, 0 <= i < 5 ->
            exists power,
              py_pow (Float64.of_int (-2)) i = Ok power
              /\ nth_error sequence (Z.to_nat i)
                 = Some (py_mul (Float64.of_int 3) power).
Proof.
  assert (Hpow : forall i, 0 <= i < 5 ->
                   exists power, py_pow (Float64.of_int (-2)) i = Ok power).
  { intros i Hi. apply small_index in Hi.
    repeat (destruct Hi as [<- | Hi]; [eexists; reflexivity |]).
    destruct Hi. }
  split; [lia |]. split; [exact Hpow |].
  apply (geometric_elements (Float64.of_int 3) (Float64.of_int (-2)) 5);
    [lia | exact Hpow].
Defined.

(** The geometric generator at first term 1.0, ratio 1e200 and three
    terms: the third power, 1e400, is out of the range of a float. *)
Lemma geometric_overflow :
  appy.generate_geometric_sequence
    (Float64.of_int 1) (Float64.of_int (10 ^ 200)) 3
  = Raise OverflowError.
Proof. vm_compute. reflexivity. Qed.

(** C2, the claim as stated fails: at the valid input (1.0, 1e200, 3) the
    geometric generator returns no sequence. *)
Lemma geometric_elements_counterexample :
  1 <= 3 <= 1000
  /\ ~ exists sequence,
         appy.generate_geometric_sequence
           (Float64.of_int 1) (Float64.of_int (10 ^ 200)) 3
         = Ok sequence.
Proof.
  split; [lia |]. intros [sequence Hgen].
  rewrite geometric_overflow in Hgen. discriminate.
Qed.

(** C5, as amended. Called with [num_terms < 1] neither generator fails:
    the loop body never runs and the empty list is returned. *)
Theorem generators_below_one {T : Type} `{PyNumber T} (a s : T) (n : Z) :
  n < 1 ->
  appy.generate_arithmetic_sequence a s n = Ok []
  /\ app.generate_arithmetic_sequence a s n = Ok []
  /\ appy.generate_geometric_sequence a s n = Ok [].
Proof.
  intros Hn.
  unfold appy.generate_arithmetic_sequence, app.generate_arithmetic_sequence,
    appy.generate_geometric_sequence.
  rewrite range_nonpositive by lia. repeat split.
Qed.

Lemma generators_below_one_witness :
  -3 < 1
  /\ appy.generate_arithmetic_sequence (Float64.of_int 1) (Float64.of_int 2) (-3)
     = Ok []
  /\ app.generate_arithmetic_sequence (Float64.of_int 1) (Float64.of_int 2) (-3)
     = Ok []
  /\ appy.generate_geometric_sequence (Float64.of_int 1) (Float64.of_int 2) (-3)
     = Ok [].
Proof.
  split; [lia |].
  apply (generators_below_one (Float64.of_int 1) (Float64.of_int 2) (-3)). lia.
Defined.

(** C5, the claim as stated fails: with [num_terms = 0] no error is
    raised by either generator. *)
Lemma generators_below_one_counterexample :
  0 < 1
  /\ ~ (exists e,
          appy.generate_arithmetic_sequence
            (Float64.of_int 1) (Float64.of_int 1) 0 = Raise e)
  /\ ~ (exists e,
          appy.generate_geometric_sequence
            (Float64.of_int 1) (Float64.of_int 2) 0 = Raise e).
Proof.
  split; [lia |]. split; intros [e He]; discriminate He.
Qed.

(** C8. The arithmetic generators of [app.py] and [appy.py] return the
    same result on every input. *)
Theorem arithmetic_generators_agree {T : Type} `{PyNumber T} (a d : T) (n : Z) :
  app.generate_arithmetic_sequence a d n
  = appy.generate_arithmetic_sequence a d n.
Proof.
  now rewrite arithmetic_as_map, app_arithmetic_as_map.
Qed.

(** C9, as amended. The arithmetic generator is total: for every integer
    [n] it returns a list of [max n 0] elements. The geometric generator
    returns the empty list for [n <= 0]; for [n >= 1] it returns a list of
    [n] elements if every power [r ** i], [0 <= i < n], is computed, and
    raises if one of them raises. *)
Theorem generators_totality {T : Type} `{PyNumber T} (a s : T) (n : Z) :
  (exists sequence,
     appy.generate_arithmetic_sequence a s n = Ok sequence
     /\ List.length sequence = Z.to_nat n)
  /\ (n <= 0 ->
      appy.generate_arithmetic_sequence a s n = Ok []
      /\ appy.generate_geometric_sequence a s n = Ok [])
  /\ ((forall i, 0 <= i < n -> exists power, py_pow s i = Ok power) ->
      exists sequence,
        appy.generate_geometric_sequence a s n = Ok sequence
        /\ List.length sequence = Z.to_nat n)
  /\ (forall i e, 0 <= i < n -> py_pow s i = Raise e ->
      exists e', appy.generate_geometric_sequence a s n = Raise e').
Proof.
  repeat split.
  - exists (map (arithmetic_term a s) (range n)).
    now rewrite arithmetic_as_map, length_map, range_length.
  - unfold appy.generate_arithmetic_sequence.
    now rewrite range_nonpositive.
  - unfold appy.generate_geometric_sequence.
    now rewrite range_nonpositive.
  - intros Hpow. destruct (geometric_ok a s n Hpow) as (sequence & Hgen & Hall).
    exists sequence. split; [exact Hgen |].
    rewrite <- (Forall2_length Hall). apply range_length.
  - intros i e Hi Hp. now apply geometric_raise with (i := i) (e := e).
Qed.

Lemma generators_totality_witness :
  (exists sequence,
     appy.generate_arithmetic_sequence (Float64.of_int 1) (Float64.of_int 2) (-3) = Ok sequence
     /\ List.length sequence = Z.to_nat (-3))
  /\ appy.generate_geometric_sequence (Float64.of_int 1) (Float64.of_int 2) 0 = Ok []
  /\ (exists sequence,
        appy.generate_geometric_sequence (Float64.of_int 1) (Float64.of_int 2) 5 = Ok sequence
        /\ List.length sequence = Z.to_nat 5)
  /\ exists e,
       appy.generate_geometric_sequence (Float64.of_int 1) (Float64.of_int (10 ^ 200)) 3 = Raise e.
Proof.
  split; [| split; [| split]].
  - destruct (generators_totality (Float64.of_int 1) (Float64.of_int 2) (-3)) as (Harith & _).
    exact Harith.
  - destruct (generators_totality (Float64.of_int 1) (Float64.of_int 2) 0)
      as (_ & Hempty & _).
    apply Hempty. lia.
  - destruct (generators_totality (Float64.of_int 1) (Float64.of_int 2) 5)
      as (_ & _ & Hreturns & _).
    apply Hreturns. intros i Hi. apply small_index in Hi.
    repeat (destruct Hi as [<- | Hi]; [eexists; reflexivity |]).
    destruct Hi.
  - destruct (generators_totality (Float64.of_int 1) (Float64.of_int (10 ^ 200)) 3)
      as (_ & _ & _ & Hraises).
    apply (Hraises 2 OverflowError); [lia |].
    vm_compute. reflexivity.
Defined.

(** C9, the claim as stated fails: at the finite inputs (1.0, 1e200, 3)
    the geometric generator raises instead of returning a list. *)
Lemma generators_totality_counterexample :
  3 >= 1
  /\ exists e,
       appy.generate_geometric_sequence
         (Float64.of_int 1) (Float64.of_int (10 ^ 200)) 3
       = Raise e.
Proof.
  split; [lia |]. exists OverflowError. exact geometric_overflow.
Qed.

(** ** Binary64 facts used by the program *)
Import Float64.

Lemma digits2_pos_shift (m k : positive) :
  digits2_pos (Pos.iter xO m k) = (digits2_pos m + k)%positive.
Proof.
  induction k as [| k IH] using Pos.peano_ind.
  - cbn. lia.
  - rewrite Pos.iter_succ. cbn. rewrite IH. lia.
Qed.

Lemma mul_power_of_two (m k : positive) :
  (m * Pos.iter xO 1 k)%positive = Pos.iter xO m k.
Proof.
  induction k as [| k IH] using Pos.peano_ind.
  - cbn. lia.
  - rewrite !Pos.iter_succ, Pos.mul_xO_r. now rewrite IH.
Qed.

Lemma iter_pos_shr_1_exact (k m : positive) :
  iter_pos shr_1 k
    {| shr_m := Z.pos (Pos.iter xO m k); shr_r := false; shr_s := false |}
  = {| shr_m := Z.pos m; shr_r := false; shr_s := false |}.
Proof.
  revert m. induction k as [k IH | k IH |]; intros m; cbn.
  - now rewrite !IH.
  - now rewrite !IH.
  - reflexivity.
Qed.

Lemma round_shifted (s : bool) (m k : positive) (e e0 : Z) :
  bounded prec emax m e = true -> e0 = e - Z.pos k ->
  binary_round_aux prec emax s (Z.pos (Pos.iter xO m k)) e0 loc_Exact
  = S754_finite s m e.
Proof.
  intros Hb ->. unfold bounded, canonical_mantissa in Hb.
  apply andb_true_iff in Hb. destruct Hb as [Hc He].
  apply Z.eqb_eq in Hc.
  unfold binary_round_aux, shr_fexp at 1.
  cbn [Zdigits2]. rewrite digits2_pos_shift.
  replace (Z.pos (digits2_pos m + k) + (e - Z.pos k))
    with (Z.pos (digits2_pos m) + e) by lia.
  rewrite Hc.
  replace (e - (e - Z.pos k)) with (Z.pos k) by lia.
  cbn [shr shr_record_of_loc]. rewrite iter_pos_shr_1_exact.
  cbn [shr_m loc_of_shr_record round_nearest_even].
  replace (e - Z.pos k + Z.pos k) with e by lia.
  unfold shr_fexp. cbn [Zdigits2]. rewrite Hc, Z.sub_diag.
  cbn [shr shr_record_of_loc shr_m]. now rewrite He.
Qed.

Lemma mul_one_r (s : bool) (m : positive) (e : Z) :
  bounded prec emax m e = true ->
  mul (S754_finite s m e) (of_int 1) = S754_finite s m e.
Proof.
  intros Hb.
  change (of_int 1) with (S754_finite false (Pos.iter xO 1%positive 52) (-52)).
  unfold mul, SFmul. rewrite mul_power_of_two, xorb_false_r.
  now apply round_shifted with (e := e).
Qed.

Lemma mul_one_exact (a : float) :
  is_float64 a = true -> mul a (of_int 1) = a.
Proof.
  destruct a as [s | s | | s m e]; cbn; try discriminate.
  - intros _. now rewrite xorb_false_r.
  - intros Hb. now apply mul_one_r.
Qed.

Lemma eqb_refl (a : float) : is_finite a = true -> eqb a a = true.
Proof.
  destruct a as [s | s | | s m e]; cbn; try discriminate; intros _.
  - reflexivity.
  - unfold eqb, SFeqb, SFcompare.
    rewrite Z.compare_refl, Pos.compare_cont_refl. now destruct s.
Qed.

Lemma add_zero_product (a d : float) :
  is_finite a = true -> is_finite d = true ->
  eqb (add a (mul (of_int 0) d)) a = true.
Proof.
  destruct a as [sa | sa | | sa ma ea]; try discriminate;
    destruct d as [sd | sd | | sd md ed]; try discriminate; intros _ _;
    try (destruct sa, sd; reflexivity).
  - change (add _ _) with (S754_finite sa ma ea). now apply eqb_refl.
  - change (add _ _) with (S754_finite sa ma ea). now apply eqb_refl.
Qed.

Lemma pow_zero_base (sign : bool) (i : Z) :
  0 < i -> pow (S754_zero sign) i = Ok (S754_zero (sign && Z.odd i)).
Proof.
  intros Hi. unfold pow.
  destruct (Z.eqb_spec i 0) as [-> | _]; [lia |].
  destruct (Z.ltb_spec i 0); [lia | reflexivity].
Qed.

Lemma mul_zero_eq_zero (a : float) (sign : bool) :
  is_finite a = true -> eqb (mul a (S754_zero sign)) (of_int 0) = true.
Proof.
  destruct a as [s | s | | s m e]; try discriminate; intros _; reflexivity.
Qed.

(** A float equal to an [int] truncates to that [int]. *)
Lemma eqb_int_to_int (x : float) (k : Z) :
  eqb_int x k = true -> to_int x = Ok k.
Proof.
  destruct x as [s | s | | s m e]; cbn [eqb_int to_int]; try discriminate.
  - intros Hk. apply Z.eqb_eq in Hk. now subst.
  - destruct (Z.leb_spec 0 e) as [He | He]; intros Hk; apply Z.eqb_eq in Hk.
    + subst k. f_equal. destruct s; [| reflexivity].
      change (Z.neg m) with (- Z.pos m). lia.
    + assert (Hpos : 0 < 2 ^ (- e)) by (apply Z.pow_pos_nonneg; lia).
      f_equal. destruct s.
      * replace (Z.pos m) with (- k * 2 ^ (- e))
          by (change (Z.neg m) with (- Z.pos m) in Hk; lia).
        rewrite Z.div_mul by lia. lia.
      * rewrite <- Hk, Z.div_mul by lia. reflexivity.
Qed.

Lemma pow_raises_overflow (x : float) (i : Z) (e : exn) :
  0 <= i -> pow x i = Raise e -> e = OverflowError.
Proof.
  intros Hi. unfold pow.
  destruct (i =? 0); [discriminate |].
  destruct x as [s | s | | s m ex].
  - destruct (Z.ltb_spec i 0); [lia | discriminate].
  - destruct (0 <? i); discriminate.
  - discriminate.
  - cbv zeta.
    destruct (if 0 <? i then _ else _); try discriminate.
    now intros [= <-].
Qed.

Lemma first_of_range (n : Z) : 1 <= n -> exists rest, range n = 0 :: rest.
Proof.
  intros Hn. unfold range.
  destruct (Z.to_nat n) as [| k] eqn:Hk; [lia |].
  cbn. eauto.
Qed.

Lemma arithmetic_first (a d : float) (n : Z) :
  1 <= n -> is_finite a = true -> is_finite d = true ->
  exists sequence first,
    appy.generate_arithmetic_sequence a d n = Ok sequence
    /\ List.length sequence = Z.to_nat n
    /\ nth_error sequence 0 = Some first
    /\ eqb first a = true.
Proof.
  intros Hn Ha Hd. rewrite arithmetic_as_map.
  exists (map (arithmetic_term a d) (range n)), (arithmetic_term a d 0).
  rewrite length_map, range_length. repeat split.
  - destruct (first_of_range n Hn) as [rest ->]. reflexivity.
  - now apply add_zero_product.
Qed.

Lemma geometric_first (a r : float) (n : Z) :
  1 <= n -> is_float64 a = true ->
  (forall i, 0 <= i < n -> exists power, pow r i = Ok power) ->
  exists sequence first,
    appy.generate_geometric_sequence a r n = Ok sequence
    /\ List.length sequence = Z.to_nat n
    /\ nth_error sequence 0 = Some first
    /\ eqb first a = true.
Proof.
  intros Hn Ha Hpow.
  destruct (@geometric_ok float number a r n Hpow) as (sequence & Hgen & Hall).
  destruct (@geometric_nth float number a r n 0 sequence Hall ltac:(lia))
    as (power & Hp & Hnth).
  injection Hp as <-.
  exists sequence, (mul a (of_int 1)). repeat split.
  - exact Hgen.
  - rewrite <- (Forall2_length Hall). apply range_length.
  - exact Hnth.
  - rewrite mul_one_exact by exact Ha. apply eqb_refl.
    unfold is_float64 in Ha. now apply andb_true_iff in Ha.
Qed.

Lemma geometric_raises_overflow (a r : float) (n i : Z) (e : exn) :
  0 <= i < n -> pow r i = Raise e ->
  appy.generate_geometric_sequence a r n = Raise OverflowError.
Proof.
  intros Hi Hp.
  destruct (@geometric_raise float number a r n i e Hi Hp) as [e' Hgen].
  rewrite Hgen. f_equal.
  rewrite geometric_as_comprehension in Hgen.
  apply (comprehension_raises_only _ _ _ _) with (2 := Hgen).
  intros j e'' Hj Hterm. apply range_In in Hj.
  unfold geometric_term in Hterm.
  destruct (py_pow r j) as [power | e0] eqn:Hpj; cbn in Hterm; [discriminate |].
  injection Hterm as <-.
  apply (pow_raises_overflow r j); [lia | exact Hpj].
Qed.

(** C3, as amended. For every valid [n] ([1 <= n <= 1000]), finite float
    first term and finite step: the arithmetic generator returns a list of
    exactly [n] elements whose first element equals ([==]) the first term;
    so does the geometric generator when every power [r ** i],
    [0 <= i < n], is in the range of a float, and otherwise it raises
    [OverflowError] and returns no list. *)
Theorem length_and_first_term (a s : float) (n : Z) :
  1 <= n <= 1000 -> is_float64 a = true -> is_finite s = true ->
  (exists sequence first,
     appy.generate_arithmetic_sequence a s n = Ok sequence
     /\ List.length sequence = Z.to_nat n
     /\ nth_error sequence 0 = Some first
     /\ eqb first a = true)
  /\ ((forall i, 0 <= i < n -> exists power, pow s i = Ok power) ->
      exists sequence first,
        appy.generate_geometric_sequence a s n = Ok sequence
        /\ List.length sequence = Z.to_nat n
        /\ nth_error sequence 0 = Some first
        /\ eqb first a = true)
  /\ (forall i e, 0 <= i < n -> pow s i = Raise e ->
      appy.generate_geometric_sequence a s n = Raise OverflowError).
Proof.
  intros Hn Ha Hs.
  assert (Hfin : is_finite a = true).
  { unfold is_float64 in Ha. now apply andb_true_iff in Ha. }
  split; [| split].
  - apply arithmetic_first; [lia | exact Hfin | exact Hs].
  - apply geometric_first; [lia | exact Ha].
  - intros i e. apply geometric_raises_overflow.
Qed.

Lemma length_and_first_term_witness :
  1 <= 4 <= 1000
  /\ is_float64 (of_int 10) = true
  /\ is_finite (of_int (-2)) = true
  /\ (exists sequence first,
        appy.generate_arithmetic_sequence (of_int 10) (of_int (-2)) 4 = Ok sequence
        /\ List.length sequence = Z.to_nat 4
        /\ nth_error sequence 0 = Some first
        /\ eqb first (of_int 10) = true)
  /\ (exists sequence first,
        appy.generate_geometric_sequence (of_int 10) (of_int (-2)) 4 = Ok sequence
        /\ List.length sequence = Z.to_nat 4
        /\ nth_error sequence 0 = Some first
        /\ eqb first (of_int 10) = true).
Proof.
  split; [lia |]. split; [reflexivity |]. split; [reflexivity |].
  destruct (length_and_first_term (of_int 10) (of_int (-2)) 4)
    as (Harith & Hgeom & _); [lia | reflexivity | reflexivity |].
  split; [exact Harith |].
  apply Hgeom. intros i Hi.
  assert (Hin : In i [0; 1; 2; 3; 4]) by (apply small_index; lia).
  repeat (destruct Hin as [<- | Hin]; [eexists; reflexivity |]).
  destruct Hin.
Defined.

(** C3, the claim as stated fails: at [n = 3], first term 1.0 and ratio
    1e200 the geometric generator returns no list at all. *)
Lemma length_and_first_term_counterexample :
  1 <= 3 <= 1000
  /\ ~ exists sequence,
         appy.generate_geometric_sequence (of_int 1) (of_int (10 ^ 200)) 3
         = Ok sequence
         /\ List.length sequence = 3%nat.
Proof.
  split; [lia |]. intros (sequence & Hgen & _).
  rewrite geometric_overflow in Hgen. discriminate.
Qed.

(** C10, as amended. For every finite float first term [a] and every [n >= 1], the
    geometric generator called with ratio zero returns [n] elements: the
    first equals [a], because [0.0 ** 0] is [1.0], and each of the
    remaining [n - 1] equals zero. *)
Theorem geometric_ratio_zero (a : float) (sign : bool) (n : Z) :
  is_float64 a = true -> 1 <= n ->
  pow (S754_zero sign) 0 = Ok (of_int 1)
  /\ exists sequence first,
       appy.generate_geometric_sequence a (S754_zero sign) n = Ok sequence
       /\ List.length sequence = Z.to_nat n
       /\ nth_error sequence 0 = Some first
       /\ eqb first a = true
       /\ forall i, 1 <= i < n ->
            exists term,
              nth_error sequence (Z.to_nat i) = Some term
              /\ eqb term (of_int 0) = true.
Proof.
  intros Ha Hn. split; [reflexivity |].
  assert (Hfin : is_finite a = true).
  { unfold is_float64 in Ha. now apply andb_true_iff in Ha. }
  assert (Hpow : forall i, 0 <= i < n ->
                   exists power, pow (S754_zero sign) i = Ok power).
  { intros i Hi. destruct (Z.eq_dec i 0) as [-> | Hne].
    - eexists. reflexivity.
    - rewrite pow_zero_base by lia. eauto. }
  destruct (@geometric_ok float number a (S754_zero sign) n Hpow) as (sequence & Hgen & Hall).
  destruct (geometric_first a (S754_zero sign) n Hn Ha Hpow)
    as (sequence' & first & Hgen' & Hlen & Hfirst & Heq).
  rewrite Hgen in Hgen'. injection Hgen' as <-.
  exists sequence, first. repeat split; try assumption.
  intros i Hi.
  destruct (@geometric_nth float number a (S754_zero sign) n i sequence Hall ltac:(lia))
    as (power & Hp & Hnth).
  change (py_pow (S754_zero sign) i) with (pow (S754_zero sign) i) in Hp.
  rewrite pow_zero_base in Hp by lia. injection Hp as <-.
  eexists. split; [exact Hnth |]. now apply mul_zero_eq_zero.
Qed.

Lemma geometric_ratio_zero_witness :
  is_float64 (of_int (-7)) = true /\ 1 <= 3
  /\ pow (S754_zero false) 0 = Ok (of_int 1)
  /\ exists sequence first,
       appy.generate_geometric_sequence (of_int (-7)) (S754_zero false) 3
       = Ok sequence
       /\ List.length sequence = Z.to_nat 3
       /\ nth_error sequence 0 = Some first
       /\ eqb first (of_int (-7)) = true
       /\ forall i, 1 <= i < 3 ->
            exists term,
              nth_error sequence (Z.to_nat i) = Some term
              /\ eqb term (of_int 0) = true.
Proof.
  split; [reflexivity |]. split; [lia |].
  apply (geometric_ratio_zero (of_int (-7)) false 3); [reflexivity | lia].
Defined.

(** C10, the claim as stated fails: with an infinite first term the
    elements after the first are [inf * 0.0], which is NaN and not zero. *)
Lemma geometric_ratio_zero_counterexample :
  1 <= 2
  /\ appy.generate_geometric_sequence (S754_infinity false) (S754_zero false) 2
     = Ok [S754_infinity false; S754_nan]
  /\ ~ exists sequence term,
         appy.generate_geometric_sequence
           (S754_infinity false) (S754_zero false) 2 = Ok sequence
         /\ nth_error sequence 1 = Some term
         /\ eqb term (of_int 0) = true.
Proof.
  split; [lia |]. split; [reflexivity |].
  intros (sequence & term & Hgen & Hnth & Hzero).
  injection Hgen as <-. injection Hnth as <-. discriminate Hzero.
Qed.

(** ** Exact arithmetic: the sum of an arithmetic sequence *)

Lemma exact_prefix_sum (a d acc : Q) (k : nat) :
  (fold_left Qplus
     (map (arithmetic_term a d) (map Z.of_nat (seq 0 k))) acc
   == acc + inject_Z (Z.of_nat k) / 2
           * (2 * a + (inject_Z (Z.of_nat k) - 1) * d))%Q.
Proof.
  induction k as [| k IH].
  - cbn. field.
  - rewrite seq_S, !map_app, fold_left_app. cbn [map fold_left Nat.add].
    rewrite IH. unfold arithmetic_term. cbn [py_add py_mul py_of_int Exact.number].
    rewrite Nat2Z.inj_succ. unfold Z.succ. rewrite inject_Z_plus.
    change (inject_Z 1) with 1%Q. field.
Qed.

(** C6, as amended. In exact rational arithmetic, for every valid [(a, d, n)] the
    sum of the generated arithmetic sequence, accumulated from left to
    right as [sum] does, is [n / 2 * (2 * a + (n - 1) * d)]. *)
Theorem arithmetic_sum (a d : Q) (n : Z) :
  1 <= n <= 1000 ->
  exists sequence,
    appy.generate_arithmetic_sequence a d n = Ok sequence
    /\ app.generate_arithmetic_sequence a d n = Ok sequence
    /\ (py_sum sequence
        == inject_Z n / 2 * (2 * a + (inject_Z n - 1) * d))%Q.
Proof.
  intros Hn. exists (map (arithmetic_term a d) (range n)).
  rewrite arithmetic_as_map, app_arithmetic_as_map. repeat split.
  unfold py_sum, range. cbn [py_add py_of_int Exact.number].
  rewrite exact_prefix_sum, Z2Nat.id by lia.
  change (inject_Z 0) with 0%Q. ring.
Qed.

Lemma arithmetic_sum_witness :
  1 <= 4 <= 1000
  /\ exists sequence,
       appy.generate_arithmetic_sequence 10%Q (-2 # 1)%Q 4 = Ok sequence
       /\ app.generate_arithmetic_sequence 10%Q (-2 # 1)%Q 4 = Ok sequence
       /\ (py_sum sequence
           == inject_Z 4 / 2 * (2 * 10 + (inject_Z 4 - 1) * (-2 # 1)))%Q.
Proof.
  split; [lia |]. apply (arithmetic_sum 10%Q (-2 # 1)%Q 4). lia.
Defined.

(** C6, the claim as stated fails on floats. With the finite floats
    [a = 7 * 2^1020] and [d = -7 * 2^1018] and the valid [n = 9] the nine
    terms are finite and symmetric around [0.0], and the formula
    [n / 2 * (2 * a + (n - 1) * d)] is [0], in exact arithmetic and
    computed on floats alike. The running total of [sum], however,
    leaves the float range at the fourth term and the sum is [inf]: no
    tolerance covers the difference. *)
Lemma arithmetic_sum_counterexample :
  1 <= 9 <= 1000
  /\ is_float64 (of_int (7 * 2 ^ 1020)) = true
  /\ is_finite (of_int (7 * 2 ^ 1020)) = true
  /\ is_float64 (of_int (-7 * 2 ^ 1018)) = true
  /\ is_finite (of_int (-7 * 2 ^ 1018)) = true
  /\ exists sequence,
       appy.generate_arithmetic_sequence
         (of_int (7 * 2 ^ 1020)) (of_int (-7 * 2 ^ 1018)) 9 = Ok sequence
       /\ app.generate_arithmetic_sequence
            (of_int (7 * 2 ^ 1020)) (of_int (-7 * 2 ^ 1018)) 9 = Ok sequence
       /\ forallb is_finite sequence = true
       /\ py_sum sequence = S754_infinity false
       /\ mul (SFdiv prec emax (of_int 9) (of_int 2))
            (add (mul (of_int 2) (of_int (7 * 2 ^ 1020)))
               (mul (of_int (9 - 1)) (of_int (-7 * 2 ^ 1018))))
          = S754_zero false
       /\ (inject_Z 9 / 2
           * (2 * inject_Z (7 * 2 ^ 1020)
              + (inject_Z 9 - 1) * inject_Z (-7 * 2 ^ 1018)) == 0)%Q.
Proof.
  split; [lia |]. do 4 (split; [vm_compute; reflexivity |]).
  exists (map (arithmetic_term (of_int (7 * 2 ^ 1020)) (of_int (-7 * 2 ^ 1018)))
            (range 9)).
  rewrite arithmetic_as_map, app_arithmetic_as_map.
  do 2 (split; [reflexivity |]).
  repeat split; vm_compute; reflexivity.
Qed.

(** ** Decimal renderings *)

Lemma is_digit_digit (d : Z) : 0 <= d < 10 -> is_digit (digit d) = true.
Proof.
  intros Hd.
  assert (Hin : In d [0; 1; 2; 3; 4; 5; 6; 7; 8; 9]) by (cbn; lia).
  repeat (destruct Hin as [<- | Hin]; [reflexivity |]). destruct Hin.
Qed.

Lemma all_digits_uint (d : Decimal.uint) :
  all_digits (NilEmpty.string_of_uint d) = true.
Proof. induction d; cbn; auto. Qed.

Lemma digits_uint (d : Decimal.uint) :
  digits (NilZero.string_of_uint d) = true.
Proof.
  unfold digits.
  destruct d; try reflexivity;
    cbn [NilZero.string_of_uint NilEmpty.string_of_uint negb String.eqb andb
         all_digits];
    apply all_digits_uint.
Qed.

Lemma digits_str_int (k : Z) : 0 <= k -> digits (str_int k) = true.
Proof.
  intros Hk. unfold str_int.
  destruct k as [| p | p]; [reflexivity | | lia].
  apply digits_uint.
Qed.

Lemma digits_integer_literal (s : string) :
  digits s = true -> integer_literal s = true.
Proof.
  destruct s as [| c s]; [discriminate |].
  destruct (ascii_dec c "-") as [-> | Hc]; [discriminate |].
  intros Hs. rewrite <- Hs.
  destruct c as [[] [] [] [] [] [] [] []]; try reflexivity.
  now destruct Hc.
Qed.

Lemma integer_literal_str_int (k : Z) : integer_literal (str_int k) = true.
Proof.
  destruct k as [| p | p].
  - reflexivity.
  - apply digits_integer_literal, digits_str_int. lia.
  - unfold str_int. cbn [Z.to_int NilZero.string_of_int integer_literal].
    apply digits_uint.
Qed.

Lemma round_half_even_nonneg (num den : Z) :
  0 <= num -> 0 < den -> 0 <= round_half_even num den.
Proof.
  intros Hnum Hden. unfold round_half_even.
  assert (0 <= num / den) by (apply Z.div_pos; lia).
  destruct (2 * (num mod den) ?= den); [destruct (Z.even _) | |]; lia.
Qed.

Lemma format_2f_ratio_two_decimals (neg : bool) (num den : Z) :
  0 <= num -> 0 < den -> two_decimals (format_2f_ratio neg num den).
Proof.
  intros Hnum Hden. unfold format_2f_ratio.
  set (hundredths := round_half_even (100 * num) den).
  assert (Hh : 0 <= hundredths)
    by (apply round_half_even_nonneg; lia).
  assert (Hw : digits (str_int (hundredths / 100)) = true)
    by (apply digits_str_int, Z.div_pos; lia).
  exists ((if neg then "-" else "") ++ str_int (hundredths / 100))%string,
    (digit (hundredths / 10 mod 10)), (digit (hundredths mod 10)).
  repeat split.
  - now destruct neg.
  - destruct neg; cbn [append integer_literal]; [exact Hw |].
    now apply digits_integer_literal.
  - apply is_digit_digit, Z.mod_pos_bound. lia.
  - apply is_digit_digit, Z.mod_pos_bound. lia.
Qed.


Lemma format_2f_two_decimals (x : float) :
  is_finite x = true -> two_decimals (format_2f x).
Proof.
  destruct x as [s | s | | s m e]; try discriminate; intros _; cbn [format_2f].
  - apply format_2f_ratio_two_decimals; lia.
  - destruct (0 <=? e) eqn:He.
    + apply format_2f_ratio_two_decimals; [| lia].
      apply Z.mul_nonneg_nonneg; [lia |]. apply Z.pow_nonneg. lia.
    + apply format_2f_ratio_two_decimals; [lia |].
      apply Z.pow_pos_nonneg; lia.
Qed.

Lemma to_int_finite (x : float) :
  is_finite x = true -> exists k, to_int x = Ok k.
Proof.
  destruct x as [s | s | | s m e]; try discriminate; intros _; cbn; eauto.
Qed.

Lemma format_number_finite (x : float) :
  is_finite x = true ->
  exists k,
    to_int x = Ok k
    /\ if eqb_int x k
       then appy.format_number x = Ok (str_int k)
            /\ integer_literal (str_int k) = true
       else appy.format_number x = Ok (format_2f x)
            /\ two_decimals (format_2f x).
Proof.
  intros Hx. destruct (to_int_finite x Hx) as [k Hk]. exists k.
  split; [exact Hk |].
  unfold appy.format_number.
  change (py_int x) with (to_int x).
  change (py_eqb_int x) with (eqb_int x).
  change (py_format_2f x) with (format_2f x).
  rewrite Hk. cbn [bind].
  destruct (eqb_int x k).
  - split; [reflexivity | apply integer_literal_str_int].
  - split; [reflexivity | now apply format_2f_two_decimals].
Qed.

Lemma format_number_ok (x : float) :
  is_finite x = true -> exists s, appy.format_number x = Ok s.
Proof.
  intros Hx. destruct (format_number_finite x Hx) as (k & _ & Hk).
  destruct (eqb_int x k); destruct Hk as [-> _]; eauto.
Qed.

(** C7, as amended. For every finite float [x] the formatting of a term
    renders [x] as the integer literal of [int(x)], with no fractional
    part, when [x == int(x)], and otherwise with exactly two decimal
    digits; the displayed sequence is the renderings of its elements
    joined by a comma and a space. *)
Theorem number_formatting (x : float) (sequence : list float) :
  is_finite x = true ->
  Forall (fun y => is_finite y = true) sequence ->
  (exists k,
     to_int x = Ok k
     /\ if eqb_int x k
        then appy.format_number x = Ok (str_int k)
             /\ integer_literal (str_int k) = true
        else appy.format_number x = Ok (format_2f x)
             /\ two_decimals (format_2f x))
  /\ exists parts,
       appy.sequence_str sequence = Ok (join ", " parts)
       /\ Forall2 (fun y part => appy.format_number y = Ok part) sequence parts.
Proof.
  intros Hx Hall. split; [now apply format_number_finite |].
  destruct (comprehension_ok appy.format_number sequence) as (parts & Hc & Hparts).
  - intros y Hy. apply format_number_ok.
    now apply (proj1 (Forall_forall _ _) Hall).
  - exists parts. unfold appy.sequence_str. rewrite Hc. auto.
Qed.

Lemma number_formatting_witness :
  is_finite (of_ratio 27 8) = true
  /\ Forall (fun y => is_finite y = true) [of_int 1; of_ratio 3 2; of_ratio 9 4]
  /\ (exists k,
        to_int (of_ratio 27 8) = Ok k
        /\ if eqb_int (of_ratio 27 8) k
           then appy.format_number (of_ratio 27 8) = Ok (str_int k)
                /\ integer_literal (str_int k) = true
           else appy.format_number (of_ratio 27 8) = Ok (format_2f (of_ratio 27 8))
                /\ two_decimals (format_2f (of_ratio 27 8)))
  /\ exists parts,
       appy.sequence_str [of_int 1; of_ratio 3 2; of_ratio 9 4]
       = Ok (join ", " parts)
       /\ Forall2 (fun y part => appy.format_number y = Ok part)
            [of_int 1; of_ratio 3 2; of_ratio 9 4] parts.
Proof.
  assert (Hall : Forall (fun y => is_finite y = true)
                   [of_int 1; of_ratio 3 2; of_ratio 9 4])
    by (repeat constructor).
  split; [reflexivity |]. split; [exact Hall |].
  apply (number_formatting (of_ratio 27 8) [of_int 1; of_ratio 3 2; of_ratio 9 4]);
    [reflexivity | exact Hall].
Defined.

(** 3.375 is a tie between 3.37 and 3.38 and goes to the even digit; 1.0
    is rendered without a fractional part. *)
Example format_number_examples :
  appy.format_number (of_ratio 27 8) = Ok "3.38"%string
  /\ appy.format_number (of_ratio (-1) 1000) = Ok "-0.00"%string
  /\ appy.format_number (S754_zero true) = Ok "0"%string
  /\ appy.sequence_str [of_int 1; of_ratio 3 2; of_ratio 9 4]
     = Ok "1, 1.50, 2.25"%string.
Proof. repeat split; vm_compute; reflexivity. Qed.

(** C7, the claim as stated fails: the formatting of the float infinity
    raises [OverflowError] at [int(term)], so nothing is rendered. *)
Lemma number_formatting_counterexample :
  ~ exists s, appy.format_number (S754_infinity false) = Ok s.
Proof. intros [s Hs]. discriminate Hs. Qed.

(** An infinite term comes out of finite, valid inputs: the second term
    of the arithmetic sequence from 1e308 with difference 1e308. *)
Example infinite_term_reachable :
  appy.generate_arithmetic_sequence (of_int (10 ^ 308)) (of_int (10 ^ 308)) 2
  = Ok [of_int (10 ^ 308); S754_infinity false].
Proof. vm_compute. reflexivity. Qed.

(** ** The page shown by [main] *)

Section Page.
Context {T : Type} `{PyNumber T}.

Lemma calls_bind {A B : Type} (m : page T A) (k : A -> page T B) :
  fst (page_bind m k)
  = fst m ++ match snd m with
             | Ok a => fst (k a)
             | Raise _ => []
             end.
Proof.
  destruct m as [calls [a | e]]; cbn.
  - now destruct (k a).
  - now rewrite app_nil_r.
Qed.

Lemma calls_try_except (body : page T unit) (handler : exn -> page T unit) :
  fst (try_except body handler)
  = fst body ++ match snd body with
                | Ok _ => []
                | Raise e => fst (handler e)
                end.
Proof.
  destruct body as [calls [[] | e]]; cbn.
  - now rewrite app_nil_r.
  - now destruct (handler e).
Qed.

Lemma quiet_bind {A B : Type} (m : page T A) (k : A -> page T B) :
  Forall not_st_error (fst m) ->
  (forall a, Forall not_st_error (fst (k a))) ->
  Forall not_st_error (fst (page_bind m k)).
Proof.
  intros Hm Hk. rewrite calls_bind. apply Forall_app. split; [exact Hm |].
  destruct (snd m); [apply Hk | constructor].
Qed.

Lemma quiet_for_each {A : Type} (body : A -> page T unit) (xs : list A) :
  (forall x, Forall not_st_error (fst (body x))) ->
  Forall not_st_error (fst (page_for_each body xs)).
Proof.
  intros Hbody. induction xs as [| x xs IH]; cbn [page_for_each].
  - constructor.
  - apply quiet_bind; [apply Hbody | intros _; exact IH].
Qed.

Lemma quiet_try_except (body : page T unit) (handler : exn -> page T unit) :
  Forall not_st_error (fst body) ->
  (forall e, Forall not_st_error (fst (handler e))) ->
  Forall not_st_error (fst (try_except body handler)).
Proof.
  intros Hb Hh. rewrite calls_try_except. apply Forall_app. split; [exact Hb |].
  destruct (snd body); [constructor | apply Hh].
Qed.

Lemma quiet_eval {A : Type} (r : result A) :
  Forall not_st_error (fst (eval (T := T) r)).
Proof. constructor. Qed.

Lemma quiet_show (c : st_call T) :
  not_st_error c -> Forall not_st_error (fst (show c)).
Proof. intros Hc. repeat constructor. exact Hc. Qed.
End Page.

Ltac quiet :=
  repeat first
    [ apply quiet_eval
    | apply quiet_show; intros ?; discriminate
    | apply quiet_for_each; intros ?
    | apply quiet_try_except; [| intros ?]
    | apply quiet_bind; [| intros ?]
    | match goal with |- context [let '(_, _) := ?p in _] => destruct p end ].

Section Validation.
Context {T : Type} `{PyNumber T}.
Variables generate_arithmetic generate_geometric : T -> T -> Z -> result (list T).

Lemma appy_rejects_nonpositive (w : appy.inputs T) :
  appy.num_terms w <= 0 ->
  appy.main_with generate_arithmetic generate_geometric w
  = [st_header "Input Parameters";
     st_error "❌ Number of terms must be a positive integer!"].
Proof.
  intros Hn. unfold appy.main_with.
  destruct (Z.leb_spec (appy.num_terms w) 0) as [Hle | Hgt]; [reflexivity | lia].
Qed.

Lemma appy_rejects_above (w : appy.inputs T) :
  1000 < appy.num_terms w ->
  appy.main_with generate_arithmetic generate_geometric w
  = [st_header "Input Parameters";
     st_error "❌ Number of terms cannot exceed 1000!"].
Proof.
  intros Hn. unfold appy.main_with.
  destruct (Z.leb_spec (appy.num_terms w) 0) as [Hle | Hgt]; [lia |].
  destruct (appy.num_terms w >? 1000) eqn:Hmax; [reflexivity | lia].
Qed.

Lemma app_rejects_nonpositive (w : app.inputs T) :
  app.num_terms w <= 0 ->
  app.main_with generate_arithmetic w
  = [st_header "Input Parameters";
     st_error "❌ Number of terms must be a positive integer!"].
Proof.
  intros Hn. unfold app.main_with.
  destruct (Z.leb_spec (app.num_terms w) 0) as [Hle | Hgt]; [reflexivity | lia].
Qed.

Lemma app_rejects_above (w : app.inputs T) :
  1000 < app.num_terms w ->
  app.main_with generate_arithmetic w
  = [st_header "Input Parameters";
     st_error "❌ Number of terms cannot exceed 1000!"].
Proof.
  intros Hn. unfold app.main_with.
  destruct (Z.leb_spec (app.num_terms w) 0) as [Hle | Hgt]; [lia |].
  destruct (app.num_terms w >? 1000) eqn:Hmax; [reflexivity | lia].
Qed.

Lemma appy_show_terms_quiet (sequence : list T) :
  Forall not_st_error (fst (appy.show_terms sequence)).
Proof. unfold appy.show_terms. quiet. Qed.

Lemma app_show_terms_quiet (sequence : list T) :
  Forall not_st_error (fst (app.show_terms sequence)).
Proof. unfold app.show_terms. quiet. Qed.

Lemma appy_accepts (w : appy.inputs T) :
  1 <= appy.num_terms w <= 1000 ->
  exists rest,
    appy.main_with generate_arithmetic generate_geometric w
    = st_header "Input Parameters" :: st_header "Generated Sequence" :: rest
    /\ Forall not_st_error rest
    /\ forall sequence,
         match appy.sequence_type w with
         | Arithmetic =>
             generate_arithmetic (appy.first_term w) (appy.second_param w)
               (appy.num_terms w)
         | Geometric =>
             generate_geometric (appy.first_term w) (appy.second_param w)
               (appy.num_terms w)
         end = Ok sequence ->
         exists message rest', rest = st_success message :: rest'.
Proof.
  intros Hn. unfold appy.main_with.
  destruct (Z.leb_spec (appy.num_terms w) 0) as [Hle | Hgt]; [lia |].
  destruct (appy.num_terms w >? 1000) eqn:Hmax; [lia |].
  rewrite calls_bind. cbn [show fst snd app].
  rewrite calls_bind. cbn [show fst snd app].
  eexists. split; [reflexivity |]. split.
  - apply quiet_try_except; [| intros e; quiet].
    apply quiet_bind; [quiet |]. intros sequence.
    apply quiet_bind; [quiet |]. intros _.
    apply quiet_bind; [apply appy_show_terms_quiet |]. intros _.
    quiet.
  - intros sequence Hgen. rewrite Hgen.
    rewrite calls_try_except, calls_bind. cbn [eval fst snd app].
    rewrite calls_bind. cbn [show fst snd app]. eauto.
Qed.

Lemma app_accepts (w : app.inputs T) :
  1 <= app.num_terms w <= 1000 ->
  exists rest,
    app.main_with generate_arithmetic w
    = st_header "Input Parameters" :: st_header "Generated Sequence" :: rest
    /\ Forall not_st_error rest
    /\ forall sequence,
         generate_arithmetic (app.first_term w) (app.common_difference w)
           (app.num_terms w) = Ok sequence ->
         exists message rest', rest = st_success message :: rest'.
Proof.
  intros Hn. unfold app.main_with.
  destruct (Z.leb_spec (app.num_terms w) 0) as [Hle | Hgt]; [lia |].
  destruct (app.num_terms w >? 1000) eqn:Hmax; [lia |].
  rewrite calls_bind. cbn [show fst snd app].
  rewrite calls_bind. cbn [show fst snd app].
  eexists. split; [reflexivity |]. split.
  - apply quiet_try_except; [| intros e; quiet].
    apply quiet_bind; [quiet |]. intros sequence.
    apply quiet_bind; [quiet |]. intros _.
    apply quiet_bind; [apply app_show_terms_quiet |]. intros _.
    quiet.
  - intros sequence Hgen. rewrite Hgen.
    rewrite calls_try_except, calls_bind. cbn [eval fst snd app].
    rewrite calls_bind. cbn [show fst snd app]. eauto.
Qed.
End Validation.

(** C4. In both programs the validation of [main] rejects every
    [num_terms <= 0] (so 0 and every negative count) and every
    [num_terms > 1000] (so 1001): the page then holds the input header
    and the validation error, whatever the generators are, so no generator
    is called. Every count from 1 to 1000 (so 1 and 1000) passes: no
    validation error is shown, the generator is called, and its sequence
    is announced by [st.success]. *)
Theorem validation_boundary {T : Type} `{PyNumber T}
    (generate_arithmetic generate_geometric : T -> T -> Z -> result (list T))
    (w : appy.inputs T) (w' : app.inputs T) :
  (appy.num_terms w <= 0 ->
   appy.main_with generate_arithmetic generate_geometric w
   = [st_header "Input Parameters";
      st_error "❌ Number of terms must be a positive integer!"])
  /\ (1000 < appy.num_terms w ->
      appy.main_with generate_arithmetic generate_geometric w
      = [st_header "Input Parameters";
         st_error "❌ Number of terms cannot exceed 1000!"])
  /\ (1 <= appy.num_terms w <= 1000 ->
      exists rest,
        appy.main_with generate_arithmetic generate_geometric w
        = st_header "Input Parameters" :: st_header "Generated Sequence" :: rest
        /\ Forall not_st_error rest
        /\ forall sequence,
             match appy.sequence_type w with
             | Arithmetic =>
                 generate_arithmetic (appy.first_term w) (appy.second_param w)
                   (appy.num_terms w)
             | Geometric =>
                 generate_geometric (appy.first_term w) (appy.second_param w)
                   (appy.num_terms w)
             end = Ok sequence ->
             exists message rest', rest = st_success message :: rest')
  /\ (app.num_terms w' <= 0 ->
      app.main_with generate_arithmetic w'
      = [st_header "Input Parameters";
         st_error "❌ Number of terms must be a positive integer!"])
  /\ (1000 < app.num_terms w' ->
      app.main_with generate_arithmetic w'
      = [st_header "Input Parameters";
         st_error "❌ Number of terms cannot exceed 1000!"])
  /\ (1 <= app.num_terms w' <= 1000 ->
      exists rest,
        app.main_with generate_arithmetic w'
        = st_header "Input Parameters" :: st_header "Generated Sequence" :: rest
        /\ Forall not_st_error rest
        /\ forall sequence,
             generate_arithmetic (app.first_term w') (app.common_difference w')
               (app.num_terms w') = Ok sequence ->
             exists message rest', rest = st_success message :: rest').
Proof.
  repeat split.
  - apply appy_rejects_nonpositive.
  - apply appy_rejects_above.
  - apply appy_accepts.
  - apply app_rejects_nonpositive.
  - apply app_rejects_above.
  - apply app_accepts.
Qed.

Lemma validation_boundary_witness :
  appy.main {| appy.sequence_type := Geometric; appy.first_term := of_int 1;
               appy.second_param := of_int 2; appy.num_terms := 0 |}
  = [st_header "Input Parameters";
     st_error "❌ Number of terms must be a positive integer!"]
  /\ app.main {| app.first_term := of_int 1; app.common_difference := of_int 2;
                 app.num_terms := 1001 |}
     = [st_header "Input Parameters";
        st_error "❌ Number of terms cannot exceed 1000!"]
  /\ exists message rest,
       appy.main {| appy.sequence_type := Arithmetic; appy.first_term := of_int 1;
                    appy.second_param := of_int 2; appy.num_terms := 1000 |}
       = st_header "Input Parameters" :: st_header "Generated Sequence"
         :: st_success message :: rest.
Proof.
  split; [| split].
  - destruct (validation_boundary
                appy.generate_arithmetic_sequence appy.generate_geometric_sequence
                {| appy.sequence_type := Geometric; appy.first_term := of_int 1;
                   appy.second_param := of_int 2; appy.num_terms := 0 |}
                {| app.first_term := of_int 1; app.common_difference := of_int 2;
                   app.num_terms := 0 |})
      as (Hrejects & _).
    apply Hrejects. cbn. lia.
  - destruct (validation_boundary
                app.generate_arithmetic_sequence appy.generate_geometric_sequence
                {| appy.sequence_type := Geometric; appy.first_term := of_int 1;
                   appy.second_param := of_int 2; appy.num_terms := 0 |}
                {| app.first_term := of_int 1; app.common_difference := of_int 2;
                   app.num_terms := 1001 |})
      as (_ & _ & _ & _ & Hrejects & _).
    apply Hrejects. cbn. lia.
  - destruct (validation_boundary
                appy.generate_arithmetic_sequence appy.generate_geometric_sequence
                {| appy.sequence_type := Arithmetic; appy.first_term := of_int 1;
                   appy.second_param := of_int 2; appy.num_terms := 1000 |}
                {| app.first_term := of_int 1; app.common_difference := of_int 2;
                   app.num_terms := 1000 |})
      as (_ & _ & Haccepts & _).
    destruct Haccepts as (rest & Hmain & _ & Hsuccess); [cbn; lia |].
    destruct (Hsuccess _ (arithmetic_as_map _ _ _)) as (message & rest' & ->).
    exists message, rest'. exact Hmain.
Defined.


(** ** The concrete scenarios of the specification, on floats *)

Example scenario_1 :
  appy.generate_arithmetic_sequence (of_int 1) (of_int 1) 5
  = Ok (map of_int [1; 2; 3; 4; 5])
  /\ py_sum (map of_int [1; 2; 3; 4; 5]) = of_int 15.
Proof. split; vm_compute; reflexivity. Qed.

Example scenario_2 :
  appy.generate_arithmetic_sequence (of_int 10) (of_int (-2)) 4
  = Ok (map of_int [10; 8; 6; 4])
  /\ py_sum (map of_int [10; 8; 6; 4]) = of_int 28.
Proof. split; vm_compute; reflexivity. Qed.

Example scenario_3 :
  appy.generate_geometric_sequence (of_int 1) (of_int 2) 5
  = Ok (map of_int [1; 2; 4; 8; 16])
  /\ py_sum (map of_int [1; 2; 4; 8; 16]) = of_int 31.
Proof. split; vm_compute; reflexivity. Qed.

Example scenario_4 :
  appy.generate_geometric_sequence (of_int 3) (of_int 1) 4
  = Ok (map of_int [3; 3; 3; 3])
  /\ py_sum (map of_int [3; 3; 3; 3]) = of_int 12.
Proof. split; vm_compute; reflexivity. Qed.

Example scenario_5 :
  appy.generate_geometric_sequence (of_int 1) (of_int (-1)) 4
  = Ok (map of_int [1; -1; 1; -1])
  /\ py_sum (map of_int [1; -1; 1; -1]) = of_int 0.
Proof. split; vm_compute; reflexivity. Qed.

(** * Further properties of the generators *)

Lemma seq_from (start len : nat) :
  seq start len = map (fun k => (start + k)%nat) (seq 0 len).
Proof.
  revert start. induction len as [| len IH]; intros start; cbn; [reflexivity |].
  rewrite Nat.add_0_r. f_equal.
  rewrite (IH (S start)), (IH 1%nat), map_map.
  apply map_ext. intros k. lia.
Qed.

Lemma range_split (n m : Z) :
  0 <= n <= m -> range m = range n ++ map (fun i => n + i) (range (m - n)).
Proof.
  intros Hnm. unfold range.
  replace (Z.to_nat m) with (Z.to_nat n + Z.to_nat (m - n))%nat by lia.
  rewrite seq_app, map_app. f_equal. cbn [Nat.add].
  rewrite (seq_from (Z.to_nat n)), !map_map.
  apply map_ext. intros k. lia.
Qed.

Lemma comprehension_app {A B : Type} (f : A -> result B) (xs ys : list A) :
  comprehension f (xs ++ ys)
  = (l1 <- comprehension f xs ;; l2 <- comprehension f ys ;; Ok (l1 ++ l2)).
Proof.
  induction xs as [| x xs IH]; cbn.
  - now destruct (comprehension f ys).
  - destruct (f x) as [y | e]; cbn; [| reflexivity].
    rewrite IH. destruct (comprehension f xs) as [l1 | e]; cbn; [| reflexivity].
    now destruct (comprehension f ys).
Qed.

Lemma comprehension_length {A B : Type} (f : A -> result B) (xs : list A)
    (ys : list B) :
  comprehension f xs = Ok ys -> List.length ys = List.length xs.
Proof.
  revert ys. induction xs as [| x xs IH]; intros ys; cbn.
  - now intros [= <-].
  - destruct (f x) as [y | e]; cbn; [| discriminate].
    destruct (comprehension f xs) as [l | e]; cbn; [| discriminate].
    intros [= <-]. cbn. f_equal. now apply IH.
Qed.

(** X1. Asking for more terms never changes the terms already there: for
    [0 <= n <= m] the arithmetic sequence of [n] terms is the first [n]
    terms of the sequence of [m] terms; and when the geometric generator
    returns for [m] terms it returns their first [n] for [n] terms, while
    an exception raised for [n] terms is raised for [m] terms too. *)
Theorem sequences_extend {T : Type} `{PyNumber T} (a s : T) (n m : Z) :
  0 <= n <= m ->
  (exists longer,
     appy.generate_arithmetic_sequence a s m = Ok longer
     /\ appy.generate_arithmetic_sequence a s n
        = Ok (firstn (Z.to_nat n) longer))
  /\ (forall longer,
        appy.generate_geometric_sequence a s m = Ok longer ->
        appy.generate_geometric_sequence a s n
        = Ok (firstn (Z.to_nat n) longer))
  /\ (forall e,
        appy.generate_geometric_sequence a s n = Raise e ->
        appy.generate_geometric_sequence a s m = Raise e).
Proof.
  intros Hnm. split; [| split].
  - exists (map (arithmetic_term a s) (range m)).
    rewrite !arithmetic_as_map. split; [reflexivity |]. f_equal.
    rewrite (range_split n m Hnm), map_app, firstn_app.
    rewrite length_map, range_length, Nat.sub_diag, firstn_O, app_nil_r.
    rewrite firstn_all2; [reflexivity |].
    rewrite length_map, range_length. lia.
  - intros longer. rewrite !geometric_as_comprehension.
    rewrite (range_split n m Hnm), comprehension_app.
    destruct (comprehension (geometric_term a s) (range n)) as [l1 | e] eqn:Hl1;
      cbn [bind]; [| discriminate].
    destruct (comprehension _ (map _ _)) as [l2 | e]; cbn [bind]; [| discriminate].
    intros [= <-]. f_equal.
    apply comprehension_length in Hl1. rewrite range_length in Hl1.
    rewrite <- Hl1, firstn_app, Nat.sub_diag, firstn_O, app_nil_r.
    now rewrite firstn_all.
  - intros e. rewrite !geometric_as_comprehension.
    rewrite (range_split n m Hnm), comprehension_app.
    now intros ->.
Qed.

Lemma sequences_extend_witness :
  0 <= 2 <= 4
  /\ (exists longer,
        appy.generate_arithmetic_sequence (of_int 10) (of_int (-2)) 4 = Ok longer
        /\ appy.generate_arithmetic_sequence (of_int 10) (of_int (-2)) 2
           = Ok (firstn (Z.to_nat 2) longer))
  /\ (forall longer,
        appy.generate_geometric_sequence (of_int 10) (of_int (-2)) 4 = Ok longer ->
        appy.generate_geometric_sequence (of_int 10) (of_int (-2)) 2
        = Ok (firstn (Z.to_nat 2) longer))
  /\ (forall e,
        appy.generate_geometric_sequence (of_int 10) (of_int (-2)) 2 = Raise e ->
        appy.generate_geometric_sequence (of_int 10) (of_int (-2)) 4 = Raise e).
Proof.
  split; [lia |]. apply (sequences_extend (of_int 10) (of_int (-2)) 2 4). lia.
Defined.

Lemma last_item_snoc {A : Type} (xs : list A) (x : A) :
  last_item (xs ++ [x]) = Ok x.
Proof. unfold last_item. now rewrite rev_app_distr. Qed.

Lemma range_snoc (n : Z) : 1 <= n -> range n = range (n - 1) ++ [n - 1].
Proof.
  intros Hn. rewrite (range_split (n - 1) n) by lia. f_equal.
  replace (n - (n - 1)) with 1 by lia.
  change (range 1) with [0]. cbn [map]. now rewrite Z.add_0_r.
Qed.

(** X2. The "Last Term" shown by [main] is [sequence[-1]]. On a
    generated sequence of [n >= 1] terms it is the term of index [n - 1],
    [a + (n-1)*d] or [a * r**(n-1)]; it raises [IndexError] only on the
    empty sequence of [n <= 0], which the validation of [main] excludes. *)
Theorem last_term {T : Type} `{PyNumber T} (a s : T) (n : Z) :
  (1 <= n ->
   (exists sequence,
      appy.generate_arithmetic_sequence a s n = Ok sequence
      /\ last_item sequence = Ok (py_add a (py_mul (py_of_int (n - 1)) s)))
   /\ forall sequence,
        appy.generate_geometric_sequence a s n = Ok sequence ->
        exists power,
          py_pow s (n - 1) = Ok power
          /\ last_item sequence = Ok (py_mul a power))
  /\ (n <= 0 ->
      exists sequence,
        appy.generate_arithmetic_sequence a s n = Ok sequence
        /\ appy.generate_geometric_sequence a s n = Ok sequence
        /\ last_item sequence = Raise IndexError).
Proof.
  split.
  - intros Hn. split.
    + exists (map (arithmetic_term a s) (range n)).
      rewrite arithmetic_as_map. split; [reflexivity |].
      rewrite (range_snoc n Hn), map_app. apply last_item_snoc.
    + intros sequence. rewrite geometric_as_comprehension.
      rewrite (range_snoc n Hn), comprehension_app.
      destruct (comprehension _ (range (n - 1))) as [l1 | e]; cbn [bind];
        [| discriminate].
      cbn [comprehension]. unfold geometric_term at 1.
      destruct (py_pow s (n - 1)) as [power | e]; cbn [bind]; [| discriminate].
      intros [= <-]. exists power. split; [reflexivity |].
      apply last_item_snoc.
  - intros Hn. exists [].
    unfold appy.generate_arithmetic_sequence, appy.generate_geometric_sequence.
    rewrite range_nonpositive by exact Hn. repeat split.
Qed.

Lemma last_term_witness :
  (exists sequence,
     appy.generate_arithmetic_sequence (of_int 10) (of_int (-2)) 4 = Ok sequence
     /\ last_item sequence
        = Ok (py_add (of_int 10) (py_mul (py_of_int (4 - 1)) (of_int (-2)))))
  /\ exists sequence,
       appy.generate_arithmetic_sequence (of_int 10) (of_int (-2)) 0 = Ok sequence
       /\ appy.generate_geometric_sequence (of_int 10) (of_int (-2)) 0 = Ok sequence
       /\ last_item sequence = Raise IndexError.
Proof.
  split.
  - destruct (last_term (of_int 10) (of_int (-2)) 4) as (Hlast & _).
    apply Hlast. lia.
  - destruct (last_term (of_int 10) (of_int (-2)) 0) as (_ & Hempty).
    apply Hempty. lia.
Defined.

(** ** In exact arithmetic *)

Lemma comprehension_map {A B : Type} (f : A -> result B) (g : A -> B)
    (xs : list A) :
  (forall x, In x xs -> f x = Ok (g x)) ->
  comprehension f xs = Ok (map g xs).
Proof.
  induction xs as [| x xs IH]; intros Hf; cbn; [reflexivity |].
  rewrite (Hf x) by now left. cbn.
  rewrite IH by (intros; apply Hf; now right). reflexivity.
Qed.

Lemma exact_pow_nonneg (r : Q) (i : Z) : 0 <= i -> Exact.pow r i = Ok (r ^ i)%Q.
Proof.
  intros Hi. unfold Exact.pow.
  destruct (Z.ltb_spec i 0) as [Hneg | _]; [lia | reflexivity].
Qed.

Lemma exact_geometric_as_map (a r : Q) (n : Z) :
  appy.generate_geometric_sequence a r n
  = Ok (map (fun i => a * r ^ i)%Q (range n)).
Proof.
  rewrite geometric_as_comprehension. apply comprehension_map.
  intros i Hi. apply range_In in Hi. unfold geometric_term.
  change (py_pow r i) with (Exact.pow r i).
  rewrite exact_pow_nonneg by lia. reflexivity.
Qed.

Lemma Qpower_succ (r : Q) (i : Z) : 0 <= i -> (r ^ (i + 1) == r ^ i * r)%Q.
Proof.
  intros Hi. rewrite Qpower_plus' by lia. now rewrite Qpower_1_r.
Qed.

Lemma step_order (x y d : Q) :
  (y - x == d)%Q -> ((0 < d)%Q -> (x < y)%Q) /\ ((d < 0)%Q -> (y < x)%Q).
Proof.
  intros Hdiff. split; intros Hd; apply Qlt_minus_iff.
  - unfold Qminus in Hdiff. now rewrite Hdiff.
  - setoid_replace (x + - y)%Q with (- d)%Q by (rewrite <- Hdiff; ring).
    apply Qlt_minus_iff in Hd. now rewrite Qplus_0_l in Hd.
Qed.

(** X3. In exact arithmetic the common difference is the difference of
    consecutive terms, as the docstring says: two neighbours [x], [y] of
    the arithmetic sequence satisfy [y - x == d], so the sequence
    increases for a positive [d] and decreases for a negative one (the
    tips of the page). *)
Theorem exact_common_difference (a d : Q) (n i : Z) :
  0 <= i -> i + 1 < n ->
  exists sequence x y,
    appy.generate_arithmetic_sequence a d n = Ok sequence
    /\ nth_error sequence (Z.to_nat i) = Some x
    /\ nth_error sequence (Z.to_nat (i + 1)) = Some y
    /\ (y - x == d)%Q
    /\ ((0 < d)%Q -> (x < y)%Q)
    /\ ((d < 0)%Q -> (y < x)%Q).
Proof.
  intros Hi Hn.
  exists (map (arithmetic_term a d) (range n)),
    (arithmetic_term a d i), (arithmetic_term a d (i + 1)).
  rewrite arithmetic_as_map, !arithmetic_nth by lia.
  assert (Hdiff : (arithmetic_term a d (i + 1) - arithmetic_term a d i == d)%Q).
  { unfold arithmetic_term. cbn [py_add py_mul py_of_int Exact.number].
    rewrite inject_Z_plus. change (inject_Z 1) with 1%Q. ring. }
  destruct (step_order _ _ _ Hdiff) as [Hup Hdown].
  repeat split; assumption.
Qed.

Lemma exact_common_difference_witness :
  0 <= 1 /\ 1 + 1 < 4
  /\ exists sequence x y,
       appy.generate_arithmetic_sequence (1 # 3)%Q (-2 # 5)%Q 4 = Ok sequence
       /\ nth_error sequence (Z.to_nat 1) = Some x
       /\ nth_error sequence (Z.to_nat (1 + 1)) = Some y
       /\ (y - x == -2 # 5)%Q
       /\ ((0 < -2 # 5)%Q -> (x < y)%Q)
       /\ ((-2 # 5 < 0)%Q -> (y < x)%Q).
Proof.
  split; [lia |]. split; [lia |].
  apply (exact_common_difference (1 # 3)%Q (-2 # 5)%Q 4 1); lia.
Defined.

(** X4. In exact arithmetic the geometric generator never raises: for
    every integer [n] it returns [max n 0] terms, and the common ratio is
    the ratio of consecutive terms, as the docstring says: neighbours [x],
    [y] satisfy [y == x * r]. *)
Theorem exact_common_ratio (a r : Q) (n : Z) :
  exists sequence,
    appy.generate_geometric_sequence a r n = Ok sequence
    /\ List.length sequence = Z.to_nat n
    /\ forall i, 0 <= i -> i + 1 < n ->
         exists x y,
           nth_error sequence (Z.to_nat i) = Some x
           /\ nth_error sequence (Z.to_nat (i + 1)) = Some y
           /\ (y == x * r)%Q.
Proof.
  exists (map (fun i => a * r ^ i)%Q (range n)).
  rewrite exact_geometric_as_map, length_map, range_length.
  repeat split. intros i Hi Hn.
  exists (a * r ^ i)%Q, (a * r ^ (i + 1))%Q.
  rewrite !nth_error_map, !range_nth by lia. repeat split.
  rewrite Qpower_succ by lia. ring.
Qed.

(** X5. With a negative ratio and a non-zero first term the exact
    geometric sequence alternates in sign (the tip of the page): the
    product of two consecutive terms is negative. *)
Theorem exact_negative_ratio_alternates (a r : Q) (n i : Z) :
  ~ (a == 0)%Q -> (r < 0)%Q -> 0 <= i -> i + 1 < n ->
  exists sequence x y,
    appy.generate_geometric_sequence a r n = Ok sequence
    /\ nth_error sequence (Z.to_nat i) = Some x
    /\ nth_error sequence (Z.to_nat (i + 1)) = Some y
    /\ (x * y < 0)%Q.
Proof.
  intros Ha Hr Hi Hn.
  exists (map (fun i => a * r ^ i)%Q (range n)), (a * r ^ i)%Q, (a * r ^ (i + 1))%Q.
  rewrite exact_geometric_as_map, !nth_error_map, !range_nth by lia.
  repeat split.
  assert (Hr0 : ~ (r == 0)%Q) by (intros H0; rewrite H0 in Hr; discriminate).
  assert (Hx : ~ (a * r ^ i == 0)%Q).
  { intros H0. apply Qmult_integral in H0. destruct H0 as [H0 | H0];
      [now apply Ha | now apply (Qpower_not_0 r i)]. }
  rewrite Qpower_succ by lia.
  setoid_replace (a * r ^ i * (a * (r ^ i * r)))%Q
    with (((a * r ^ i) * (a * r ^ i)) * r)%Q by ring.
  setoid_replace 0%Q with (((a * r ^ i) * (a * r ^ i)) * 0)%Q by ring.
  apply Qmult_lt_l; [| exact Hr].
  destruct (Q_dec (a * r ^ i) 0) as [[Hlt | Hgt] | Heq].
  - setoid_replace ((a * r ^ i) * (a * r ^ i))%Q
      with ((- (a * r ^ i)) * (- (a * r ^ i)))%Q by ring.
    assert (0 < - (a * r ^ i))%Q.
    { apply (Qplus_lt_l _ _ (a * r ^ i)). ring_simplify. exact Hlt. }
    now apply Qmult_lt_0_compat.
  - now apply Qmult_lt_0_compat.
  - contradiction.
Qed.

Lemma exact_negative_ratio_alternates_witness :
  ~ (3 == 0)%Q /\ (-2 # 1 < 0)%Q /\ 0 <= 1 /\ 1 + 1 < 4
  /\ exists sequence x y,
       appy.generate_geometric_sequence 3%Q (-2 # 1)%Q 4 = Ok sequence
       /\ nth_error sequence (Z.to_nat 1) = Some x
       /\ nth_error sequence (Z.to_nat (1 + 1)) = Some y
       /\ (x * y < 0)%Q.
Proof.
  assert (H3 : ~ (3 == 0)%Q) by discriminate.
  assert (Hr : (-2 # 1 < 0)%Q) by reflexivity.
  split; [exact H3 |]. split; [exact Hr |]. split; [lia |]. split; [lia |].
  apply (exact_negative_ratio_alternates 3%Q (-2 # 1)%Q 4 1 H3 Hr); lia.
Defined.

Lemma exact_geometric_prefix_sum (a r acc : Q) (k : nat) :
  (fold_left Qplus (map (fun i => a * r ^ i) (map Z.of_nat (seq 0 k))) acc
   * (1 - r)
   == acc * (1 - r) + a * (1 - r ^ Z.of_nat k))%Q.
Proof.
  induction k as [| k IH].
  - cbn. ring.
  - rewrite seq_S, !map_app, fold_left_app. cbn [map fold_left Nat.add].
    rewrite Qmult_plus_distr_l, IH.
    rewrite Nat2Z.inj_succ. unfold Z.succ. rewrite Qpower_succ by lia. ring.
Qed.

Lemma exact_constant_prefix_sum (a r acc : Q) (k : nat) :
  (r == 1)%Q ->
  (fold_left Qplus (map (fun i => a * r ^ i) (map Z.of_nat (seq 0 k))) acc
   == acc + inject_Z (Z.of_nat k) * a)%Q.
Proof.
  intros Hr. induction k as [| k IH].
  - cbn. ring.
  - rewrite seq_S, !map_app, fold_left_app. cbn [map fold_left Nat.add].
    rewrite IH, Hr, Qpower_1.
    rewrite Nat2Z.inj_succ. unfold Z.succ. rewrite inject_Z_plus.
    change (inject_Z 1) with 1%Q. ring.
Qed.

(** X6. In exact arithmetic the sum [main] shows for a geometric sequence
    is the one of the formula it prints beside it: [a * (1 - r^n) / (1 - r)]
    when the ratio is not 1, and [n * a] when it is. *)
Theorem exact_geometric_sum (a r : Q) (n : Z) :
  0 <= n ->
  exists sequence,
    appy.generate_geometric_sequence a r n = Ok sequence
    /\ (~ (r == 1)%Q -> (py_sum sequence == a * (1 - r ^ n) / (1 - r))%Q)
    /\ ((r == 1)%Q -> (py_sum sequence == inject_Z n * a)%Q).
Proof.
  intros Hn. exists (map (fun i => a * r ^ i)%Q (range n)).
  rewrite exact_geometric_as_map. split; [reflexivity |].
  unfold py_sum, range. cbn [py_add py_of_int Exact.number].
  change (inject_Z 0) with 0%Q. split.
  - intros Hr.
    assert (Hden : ~ (1 - r == 0)%Q).
    { intros H0. apply Hr. rewrite <- (Qplus_0_l r), <- H0. ring. }
    apply (Qmult_inj_r _ _ (1 - r)%Q Hden).
    rewrite exact_geometric_prefix_sum, Z2Nat.id by lia. field. exact Hden.
  - intros Hr. rewrite exact_constant_prefix_sum, Z2Nat.id by (exact Hr || lia).
    ring.
Qed.

Lemma exact_geometric_sum_witness :
  0 <= 5
  /\ exists sequence,
       appy.generate_geometric_sequence 1%Q 2%Q 5 = Ok sequence
       /\ (~ (2 == 1)%Q -> (py_sum sequence == 1 * (1 - 2 ^ 5) / (1 - 2))%Q)
       /\ ((2 == 1)%Q -> (py_sum sequence == inject_Z 5 * 1)%Q).
Proof.
  split; [lia |]. apply (exact_geometric_sum 1%Q 2%Q 5). lia.
Defined.

(** * Further properties of the page *)

(** X7. When the generator raises, [main] shows nothing of a sequence:
    after the two headers the page holds only the report of the
    exception, with the message prefix of the sequence kind; no success
    notice, term, sum or further call is made. *)
Theorem generator_exception_page {T : Type} `{PyNumber T}
    (generate_arithmetic generate_geometric : T -> T -> Z -> result (list T))
    (w : appy.inputs T) (w' : app.inputs T) (e : exn) :
  (1 <= appy.num_terms w <= 1000 ->
   match appy.sequence_type w with
   | Arithmetic =>
       generate_arithmetic (appy.first_term w) (appy.second_param w)
         (appy.num_terms w)
   | Geometric =>
       generate_geometric (appy.first_term w) (appy.second_param w)
         (appy.num_terms w)
   end = Raise e ->
   appy.main_with generate_arithmetic generate_geometric w
   = [st_header "Input Parameters"; st_header "Generated Sequence";
      st_error_exception
        ("❌ An error occurred while generating the "
         ++ match appy.sequence_type w with
            | Arithmetic => "arithmetic"
            | Geometric => "geometric"
            end ++ " sequence: ") e])
  /\ (1 <= app.num_terms w' <= 1000 ->
      generate_arithmetic (app.first_term w') (app.common_difference w')
        (app.num_terms w') = Raise e ->
      app.main_with generate_arithmetic w'
      = [st_header "Input Parameters"; st_header "Generated Sequence";
         st_error_exception
           "❌ An error occurred while generating the sequence: " e]).
Proof.
  split.
  - intros Hn Hgen. unfold appy.main_with.
    destruct (Z.leb_spec (appy.num_terms w) 0) as [Hle | Hgt]; [lia |].
    destruct (appy.num_terms w >? 1000) eqn:Hmax; [lia |].
    rewrite Hgen. reflexivity.
  - intros Hn Hgen. unfold app.main_with.
    destruct (Z.leb_spec (app.num_terms w') 0) as [Hle | Hgt]; [lia |].
    destruct (app.num_terms w' >? 1000) eqn:Hmax; [lia |].
    rewrite Hgen. reflexivity.
Qed.

Lemma generator_exception_page_witness :
  appy.main {| appy.sequence_type := Geometric; appy.first_term := of_int 1;
               appy.second_param := of_int (10 ^ 200); appy.num_terms := 3 |}
  = [st_header "Input Parameters"; st_header "Generated Sequence";
     st_error_exception
       "❌ An error occurred while generating the geometric sequence: "
       OverflowError].
Proof.
  destruct (generator_exception_page
              appy.generate_arithmetic_sequence appy.generate_geometric_sequence
              {| appy.sequence_type := Geometric; appy.first_term := of_int 1;
                 appy.second_param := of_int (10 ^ 200); appy.num_terms := 3 |}
              {| app.first_term := of_int 1; app.common_difference := of_int 1;
                 app.num_terms := 3 |}
              OverflowError) as (Hpage & _).
  apply Hpage; [cbn; lia | exact geometric_overflow].
Defined.

(** ** The rows of terms *)

Lemma Forall2_firstn {A B : Type} (R : A -> B -> Prop) (k : nat)
    (xs : list A) (ys : list B) :
  Forall2 R xs ys -> Forall2 R (firstn k xs) (firstn k ys).
Proof.
  intros Hall. revert k. induction Hall; intros [| k]; cbn; auto.
Qed.

Lemma Forall2_skipn {A B : Type} (R : A -> B -> Prop) (k : nat)
    (xs : list A) (ys : list B) :
  Forall2 R xs ys -> Forall2 R (skipn k xs) (skipn k ys).
Proof.
  intros Hall. revert k. induction Hall; intros [| k]; cbn; auto.
Qed.

Lemma shifted_labels {A B : Type} (G : nat -> A -> B) (s : nat) (l : list A) :
  map (fun '(j, p) => G j p) (combine (seq (S s) (List.length l)) l)
  = map (fun '(j, p) => G (S j) p) (combine (seq s (List.length l)) l).
Proof.
  revert s. induction l as [| x l IH]; intros s; cbn; [reflexivity |].
  f_equal. apply IH.
Qed.

Lemma enumerate_app_labels {A B : Type} (F : nat -> A -> B) (l1 l2 : list A) :
  forall o,
    map (fun '(j, p) => F (o + j)%nat p) (enumerate (l1 ++ l2))
    = map (fun '(j, p) => F (o + j)%nat p) (enumerate l1)
      ++ map (fun '(j, p) => F (o + List.length l1 + j)%nat p) (enumerate l2).
Proof.
  unfold enumerate. induction l1 as [| x l1 IH]; intros o.
  - cbn [app List.length]. now rewrite Nat.add_0_r.
  - cbn [app List.length seq combine map]. f_equal.
    rewrite (shifted_labels (fun j p => F (o + j)%nat p)).
    rewrite (shifted_labels (fun j p => F (o + j)%nat p) 0 l1).
    etransitivity; [| etransitivity; [apply (IH (S o)) |]].
    + apply map_ext. intros [j p]. f_equal. lia.
    + f_equal; apply map_ext; intros [j p]; f_equal; lia.
Qed.

Lemma flat_map_map {A B C : Type} (f : B -> list C) (g : A -> B) (l : list A) :
  flat_map f (map g l) = flat_map (fun x => f (g x)) l.
Proof. induction l as [| x l IH]; cbn; [reflexivity |]. now rewrite IH. Qed.

(** Cutting a list in slices of ten and labelling each slice from its
    offset is labelling the whole list. *)
Lemma slices_labels {A B : Type} (F : nat -> A -> B) (c : nat) :
  forall (o : nat) (l : list A),
    (List.length l <= 10 * c)%nat ->
    flat_map
      (fun i => map (fun '(j, p) => F (o + i + j)%nat p)
                  (enumerate (firstn 10 (skipn i l))))
      (map (fun k => (k * 10)%nat) (seq 0 c))
    = map (fun '(j, p) => F (o + j)%nat p) (enumerate l).
Proof.
  induction c as [| c IH]; intros o l Hlen.
  - destruct l; [reflexivity | cbn in Hlen; lia].
  - cbn [seq map flat_map]. rewrite <- seq_shift, map_map, flat_map_map.
    change (0 * 10)%nat with 0%nat. rewrite skipn_O.
    rewrite (flat_map_ext _
               (fun k => map (fun '(j, p) => F (o + 10 + k * 10 + j)%nat p)
                           (enumerate (firstn 10 (skipn (k * 10) (skipn 10 l)))))).
    + rewrite <- (flat_map_map
                    (fun i => map (fun '(j, p) => F (o + 10 + i + j)%nat p)
                                (enumerate (firstn 10 (skipn i (skipn 10 l)))))
                    (fun k => (k * 10)%nat)).
      rewrite IH by (rewrite length_skipn; lia).
      rewrite <- (firstn_skipn 10 l) at 3.
      rewrite enumerate_app_labels. f_equal.
      * apply map_ext. intros [j p]. f_equal. lia.
      * destruct (Nat.le_gt_cases 10 (List.length l)) as [Hge | Hlt].
        -- rewrite firstn_length_le by exact Hge. reflexivity.
        -- rewrite skipn_all2 by lia. reflexivity.
    + intros k. rewrite skipn_skipn.
      replace (S k * 10)%nat with (k * 10 + 10)%nat by lia.
      apply map_ext. intros [j p]. f_equal. lia.
Qed.

Lemma slices_sizes {A : Type} (c : nat) :
  forall l : list A,
    (List.length l <= 10 * c)%nat ->
    list_sum (map (fun k => List.length (firstn 10 (skipn (k * 10) l)))
                (seq 0 c))
    = List.length l.
Proof.
  induction c as [| c IH]; intros l Hlen.
  - destruct l; [reflexivity | cbn in Hlen; lia].
  - cbn [seq map].
    match goal with
    | |- list_sum (?x :: ?r) = _ =>
        change (list_sum (x :: r)) with (x + list_sum r)%nat
    end.
    rewrite <- seq_shift, map_map.
    change (0 * 10)%nat with 0%nat. rewrite skipn_O.
    rewrite (map_ext _
               (fun k => List.length (firstn 10 (skipn (k * 10) (skipn 10 l))))).
    + rewrite IH by (rewrite length_skipn; lia).
      rewrite length_firstn, length_skipn. lia.
    + intros k. rewrite skipn_skipn.
      now replace (S k * 10)%nat with (k * 10 + 10)%nat by lia.
Qed.

Lemma range_step_bound (n k : nat) :
  In k (seq 0 ((n + 10 - 1) / 10)) -> (k * 10 < n)%nat.
Proof.
  intros Hk. apply in_seq in Hk.
  assert (Hdiv : (10 * ((n + 10 - 1) / 10) <= n + 10 - 1)%nat)
    by (apply Nat.Div0.mul_div_le).
  lia.
Qed.

Lemma range_step_covers (n : nat) : (n <= 10 * ((n + 10 - 1) / 10))%nat.
Proof.
  pose proof (Nat.div_mod_eq (n + 10 - 1) 10) as Hdm.
  pose proof (Nat.mod_upper_bound (n + 10 - 1) 10 ltac:(lia)) as Hmod.
  lia.
Qed.

Section Rows.
Context {T : Type} `{PyNumber T}.

Lemma page_for_each_flat {A : Type} (body : A -> page T unit)
    (g : A -> list (st_call T)) (xs : list A) :
  (forall x, In x xs -> body x = (g x, Ok tt)) ->
  page_for_each body xs = (flat_map g xs, Ok tt).
Proof.
  induction xs as [| x xs IH]; intros Hbody; cbn [page_for_each flat_map].
  - reflexivity.
  - rewrite (Hbody x) by now left.
    rewrite IH by (intros; apply Hbody; now right). reflexivity.
Qed.

Lemma row_cells (i : nat) (row : list T) (parts : list string) :
  Forall2 (fun x part => appy.format_number x = Ok part) row parts ->
  forall start,
    page_for_each (T := T)
      (fun '(j, term) =>
         (term_str <- eval (appy.format_number term) ;;
          show (st_metric (term_label (Z.of_nat (i + j + 1)))
                  (text_value term_str)))%page)
      (combine (seq start (List.length row)) row)
    = (map (fun '(j, part) => term_metric (i + j) part)
         (combine (seq start (List.length parts)) parts), Ok tt).
Proof.
  induction 1 as [| x part row parts Hx _ IH]; intros start.
  - reflexivity.
  - cbn [List.length seq combine page_for_each map].
    rewrite Hx, IH. reflexivity.
Qed.

Lemma show_terms_calls (sequence : list T) (parts : list string) :
  Forall2 (fun x part => appy.format_number x = Ok part) sequence parts ->
  appy.show_terms sequence
  = (flat_map
       (fun k =>
          st_columns (List.length (firstn 10 (skipn (k * 10) sequence)))
          :: map (fun '(j, part) => term_metric (k * 10 + j) part)
               (enumerate (firstn 10 (skipn (k * 10) parts))))
       (seq 0 ((List.length sequence + 10 - 1) / 10)), Ok tt).
Proof.
  intros Hparts. unfold appy.show_terms, range_step. cbv zeta.
  rewrite (page_for_each_flat _
             (fun i =>
                st_columns (List.length (firstn 10 (skipn i sequence)))
                :: map (fun '(j, part) => term_metric (i + j) part)
                     (enumerate (firstn 10 (skipn i parts))))).
  - now rewrite flat_map_map.
  - intros i _. unfold enumerate.
    rewrite (row_cells i _ (firstn 10 (skipn i parts)))
      by now apply Forall2_firstn, Forall2_skipn.
    reflexivity.
Qed.

Lemma term_metrics_row (k i : nat) (l : list (nat * string)) :
  term_metrics
    (st_columns k :: map (fun '(j, part) => term_metric (T := T) (i + j) part) l)
  = map (fun '(j, part) => term_metric (i + j) part) l.
Proof.
  unfold term_metrics. cbn [filter].
  induction l as [| [j part] l IH]; cbn [map filter]; [reflexivity |].
  unfold term_metric at 1. now rewrite IH.
Qed.

Lemma row_sizes_row (k : nat) (l : list (nat * string)) (i : nat) :
  row_sizes (st_columns k :: map (fun '(j, part) => term_metric (T := T) (i + j) part) l)
  = [k].
Proof.
  unfold row_sizes. cbn [flat_map app]. f_equal.
  induction l as [| [j part] l IH]; cbn; [reflexivity | exact IH].
Qed.
End Rows.

Lemma filter_flat_map {A B : Type} (f : B -> bool) (g : A -> list B)
    (l : list A) :
  filter f (flat_map g l) = flat_map (fun x => filter f (g x)) l.
Proof.
  induction l as [| x l IH]; cbn; [reflexivity |].
  now rewrite filter_app, IH.
Qed.

Lemma flat_map_flat_map {A B C : Type} (f : B -> list C) (g : A -> list B)
    (l : list A) :
  flat_map f (flat_map g l) = flat_map (fun x => flat_map f (g x)) l.
Proof.
  induction l as [| x l IH]; cbn; [reflexivity |].
  now rewrite flat_map_app, IH.
Qed.

Lemma flat_map_singleton {A B : Type} (f : A -> B) (l : list A) :
  flat_map (fun x => [f x]) l = map f l.
Proof. induction l as [| x l IH]; cbn; [reflexivity |]. now rewrite IH. Qed.

(** X8. When every term of the sequence can be formatted, the rows of
    [main] show each term exactly once and in order: the metrics are the
    renderings of the terms labelled [1, 2, ..., n]; every row has between
    one and ten columns, and the rows together have [n] columns. The two
    programs show the same rows. *)
Theorem terms_shown_once {T : Type} `{PyNumber T}
    (sequence : list T) (parts : list string) :
  Forall2 (fun x part => appy.format_number x = Ok part) sequence parts ->
  snd (appy.show_terms sequence) = Ok tt
  /\ app.show_terms sequence = appy.show_terms sequence
  /\ term_metrics (fst (appy.show_terms sequence))
     = map (fun '(j, part) => term_metric j part) (enumerate parts)
  /\ Forall (fun k => 1 <= k <= 10)%nat (row_sizes (fst (appy.show_terms sequence)))
  /\ list_sum (row_sizes (fst (appy.show_terms sequence))) = List.length sequence.
Proof.
  intros Hparts.
  pose proof (Forall2_length Hparts) as Hlen.
  assert (Happ : app.show_terms sequence = appy.show_terms sequence)
    by reflexivity.
  rewrite Happ, (show_terms_calls sequence parts Hparts). cbn [fst snd].
  split; [reflexivity |]. split; [reflexivity |]. split; [| split].
  - unfold term_metrics at 1. rewrite filter_flat_map.
    rewrite (flat_map_ext _
               (fun k => map (fun '(j, part) => term_metric (0 + k * 10 + j) part)
                           (enumerate (firstn 10 (skipn (k * 10) parts))))).
    + rewrite <- (flat_map_map
                    (fun i => map (fun '(j, part) => term_metric (0 + i + j) part)
                                (enumerate (firstn 10 (skipn i parts))))
                    (fun k => (k * 10)%nat)).
      rewrite (slices_labels (fun j part => term_metric j part)).
      * reflexivity.
      * rewrite <- Hlen. apply range_step_covers.
    + intros k.
      apply (term_metrics_row
               (List.length (firstn 10 (skipn (k * 10) sequence)))
               (k * 10)
               (enumerate (firstn 10 (skipn (k * 10) parts)))).
  - rewrite (flat_map_flat_map
               (fun c => match c with st_columns k => [k] | _ => [] end)
             : forall g l, row_sizes (flat_map g l) = _).
    rewrite (flat_map_ext _
               (fun k => [List.length (firstn 10 (skipn (k * 10) sequence))]))
      by (intros k; apply row_sizes_row).
    rewrite flat_map_singleton. apply Forall_map, Forall_forall.
    intros k Hk. apply range_step_bound in Hk.
    rewrite length_firstn, length_skipn. lia.
  - rewrite (flat_map_flat_map
               (fun c => match c with st_columns k => [k] | _ => [] end)
             : forall g l, row_sizes (flat_map g l) = _).
    rewrite (flat_map_ext _
               (fun k => [List.length (firstn 10 (skipn (k * 10) sequence))]))
      by (intros k; apply row_sizes_row).
    rewrite flat_map_singleton. apply slices_sizes, range_step_covers.
Qed.

Lemma terms_shown_once_witness :
  Forall2 (fun x part => appy.format_number x = Ok part)
    [of_int 1; of_ratio 3 2; of_ratio 9 4] ["1"; "1.50"; "2.25"]%string
  /\ snd (appy.show_terms [of_int 1; of_ratio 3 2; of_ratio 9 4]) = Ok tt
  /\ app.show_terms [of_int 1; of_ratio 3 2; of_ratio 9 4]
     = appy.show_terms [of_int 1; of_ratio 3 2; of_ratio 9 4]
  /\ term_metrics (fst (appy.show_terms [of_int 1; of_ratio 3 2; of_ratio 9 4]))
     = map (fun '(j, part) => term_metric j part)
         (enumerate ["1"; "1.50"; "2.25"]%string)
  /\ Forall (fun k => 1 <= k <= 10)%nat
       (row_sizes (fst (appy.show_terms [of_int 1; of_ratio 3 2; of_ratio 9 4])))
  /\ list_sum (row_sizes (fst (appy.show_terms [of_int 1; of_ratio 3 2; of_ratio 9 4])))
     = List.length [of_int 1; of_ratio 3 2; of_ratio 9 4].
Proof.
  assert (Hparts : Forall2 (fun x part => appy.format_number x = Ok part)
                     [of_int 1; of_ratio 3 2; of_ratio 9 4]
                     ["1"; "1.50"; "2.25"]%string)
    by (repeat constructor).
  split; [exact Hparts |].
  apply (terms_shown_once [of_int 1; of_ratio 3 2; of_ratio 9 4]
           ["1"; "1.50"; "2.25"]%string Hparts).
Defined.

(** ** What the page reports *)

Section Reports.
Context {T : Type} `{PyNumber T}.
Variable P : st_call T -> Prop.
Variable E : exn -> Prop.

Lemma result_bind {A B : Type} (m : page T A) (k : A -> page T B) :
  snd (page_bind m k)
  = match snd m with
    | Ok a => snd (k a)
    | Raise e => Raise e
    end.
Proof.
  destruct m as [calls [a | e]]; cbn; [| reflexivity]. now destruct (k a).
Qed.

Lemma only_bind {A B : Type} (m : page T A) (k : A -> page T B) :
  Forall P (fst m) ->
  (forall a, Forall P (fst (k a))) ->
  Forall P (fst (page_bind m k)).
Proof.
  intros Hm Hk. rewrite calls_bind. apply Forall_app. split; [exact Hm |].
  destruct (snd m); [apply Hk | constructor].
Qed.

Lemma only_for_each {A : Type} (body : A -> page T unit) (xs : list A) :
  (forall x, Forall P (fst (body x))) ->
  Forall P (fst (page_for_each body xs)).
Proof.
  intros Hbody. induction xs as [| x xs IH]; cbn [page_for_each].
  - constructor.
  - apply only_bind; [apply Hbody | intros _; exact IH].
Qed.

Lemma raises_bind {A B : Type} (m : page T A) (k : A -> page T B) :
  (forall e, snd m = Raise e -> E e) ->
  (forall a e, snd (k a) = Raise e -> E e) ->
  forall e, snd (page_bind m k) = Raise e -> E e.
Proof.
  intros Hm Hk e. rewrite result_bind.
  destruct (snd m) as [a | e0]; [apply Hk |].
  intros [= <-]. now apply Hm.
Qed.

Lemma raises_for_each {A : Type} (body : A -> page T unit) (xs : list A) :
  (forall x e, snd (body x) = Raise e -> E e) ->
  forall e, snd (page_for_each body xs) = Raise e -> E e.
Proof.
  intros Hbody. induction xs as [| x xs IH]; cbn [page_for_each].
  - discriminate.
  - apply raises_bind; [apply Hbody | intros _; exact IH].
Qed.
End Reports.

Lemma appy_page_after_generation {T : Type} `{PyNumber T}
    (generate_arithmetic generate_geometric : T -> T -> Z -> result (list T))
    (w : appy.inputs T) (sequence : list T) :
  1 <= appy.num_terms w <= 1000 ->
  match appy.sequence_type w with
  | Arithmetic =>
      generate_arithmetic (appy.first_term w) (appy.second_param w)
        (appy.num_terms w)
  | Geometric =>
      generate_geometric (appy.first_term w) (appy.second_param w)
        (appy.num_terms w)
  end = Ok sequence ->
  exists message prefix,
    appy.main_with generate_arithmetic generate_geometric w
    = st_header "Input Parameters" :: st_header "Generated Sequence"
      :: st_success message
      :: fst (rendering (appy.first_term w) sequence)
      ++ match snd (rendering (appy.first_term w) sequence) with
         | Ok _ => []
         | Raise e => [st_error_exception prefix e]
         end.
Proof.
  intros Hn Hgen. unfold appy.main_with.
  destruct (Z.leb_spec (appy.num_terms w) 0) as [Hle | Hgt]; [lia |].
  destruct (appy.num_terms w >? 1000) eqn:Hmax; [lia |].
  rewrite Hgen. do 2 eexists.
  rewrite calls_bind. cbn [show fst snd app].
  rewrite calls_bind. cbn [show fst snd app].
  rewrite calls_try_except, calls_bind. cbn [eval fst snd app].
  rewrite result_bind. cbn [eval snd].
  rewrite calls_bind, result_bind. cbn [show fst snd app].
  reflexivity.
Qed.

Lemma app_page_after_generation {T : Type} `{PyNumber T}
    (generate_arithmetic : T -> T -> Z -> result (list T))
    (w : app.inputs T) (sequence : list T) :
  1 <= app.num_terms w <= 1000 ->
  generate_arithmetic (app.first_term w) (app.common_difference w)
    (app.num_terms w) = Ok sequence ->
  exists message prefix,
    app.main_with generate_arithmetic w
    = st_header "Input Parameters" :: st_header "Generated Sequence"
      :: st_success message
      :: fst (rendering (app.first_term w) sequence)
      ++ match snd (rendering (app.first_term w) sequence) with
         | Ok _ => []
         | Raise e => [st_error_exception prefix e]
         end.
Proof.
  intros Hn Hgen. unfold app.main_with.
  destruct (Z.leb_spec (app.num_terms w) 0) as [Hle | Hgt]; [lia |].
  destruct (app.num_terms w >? 1000) eqn:Hmax; [lia |].
  rewrite Hgen. do 2 eexists.
  rewrite calls_bind. cbn [show fst snd app].
  rewrite calls_bind. cbn [show fst snd app].
  rewrite calls_try_except, calls_bind. cbn [eval fst snd app].
  rewrite result_bind. cbn [eval snd].
  rewrite calls_bind, result_bind. cbn [show fst snd app].
  reflexivity.
Qed.

Lemma show_terms_row_calls {T : Type} `{PyNumber T} (sequence : list T) :
  Forall row_call (fst (appy.show_terms sequence)).
Proof.
  unfold appy.show_terms. cbv zeta. apply only_for_each. intros i.
  apply only_bind; [repeat constructor |]. intros _.
  apply only_for_each. intros [j term].
  apply only_bind; [constructor |]. intros term_str. repeat constructor.
Qed.

Lemma show_terms_raises {T : Type} `{PyNumber T} (E : exn -> Prop)
    (sequence : list T) :
  (forall x e, appy.format_number x = Raise e -> E e) ->
  forall e, snd (appy.show_terms sequence) = Raise e -> E e.
Proof.
  intros Hformat. unfold appy.show_terms. cbv zeta.
  apply raises_for_each. intros i.
  apply raises_bind; [discriminate |]. intros _.
  apply raises_for_each. intros [j term].
  apply raises_bind; [exact (Hformat term) | discriminate].
Qed.

Lemma comprehension_raised_by {A B : Type} (f : A -> result B) (xs : list A)
    (e : exn) :
  comprehension f xs = Raise e -> exists x, In x xs /\ f x = Raise e.
Proof.
  induction xs as [| x xs IH]; cbn; [discriminate |].
  destruct (f x) as [y | e1] eqn:Hx; cbn.
  - destruct (comprehension f xs) as [ys | e2]; cbn; [discriminate |].
    intros [= <-]. destruct (IH eq_refl) as (x' & Hin & Hx').
    exists x'. split; [now right | exact Hx'].
  - intros [= <-]. exists x. split; [now left | exact Hx].
Qed.

Lemma rendering_stops {T : Type} `{PyNumber T} (E : exn -> Prop) (a : T)
    (sequence : list T) (x : T) (e0 : exn) :
  (forall y e, appy.format_number y = Raise e -> E e) ->
  In x sequence -> appy.format_number x = Raise e0 ->
  exists e,
    E e /\ rendering a sequence = (fst (appy.show_terms sequence), Raise e).
Proof.
  intros Hformat Hin Hx. unfold rendering.
  pose proof (show_terms_raises E sequence Hformat) as Hrows.
  destruct (appy.show_terms sequence) as [calls [[] | e]].
  - destruct (comprehension_raise _ _ _ _ Hin Hx) as [e' He'].
    exists e'. split.
    + destruct (comprehension_raised_by _ _ _ He') as (y & _ & Hy).
      exact (Hformat y e' Hy).
    + unfold appy.sequence_str. rewrite He'. cbn. now rewrite app_nil_r.
  - exists e. split; [now apply Hrows | reflexivity].
Qed.

Lemma format_number_raises (x : float) :
  is_finite x = false -> exists e, appy.format_number x = Raise e.
Proof.
  destruct x as [s | s | | s m e]; try discriminate; intros _; eexists;
    reflexivity.
Qed.

Lemma format_number_exception (x : float) (e : exn) :
  appy.format_number x = Raise e -> e = OverflowError \/ e = ValueError.
Proof.
  destruct (is_finite x) eqn:Hx.
  - destruct (format_number_ok x Hx) as [s ->]. discriminate.
  - destruct x as [s | s | | s m e']; try discriminate; cbn; intros [= <-];
      auto.
Qed.

Lemma forallb_false {A : Type} (f : A -> bool) (xs : list A) :
  forallb f xs = false -> exists x, In x xs /\ f x = false.
Proof.
  induction xs as [| x xs IH]; cbn; [discriminate |].
  intros Hxs. apply andb_false_iff in Hxs. destruct Hxs as [Hx | Hxs].
  - exists x. split; [now left | exact Hx].
  - destruct (IH Hxs) as (y & Hin & Hy). exists y. split; [now right | exact Hy].
Qed.

Lemma stopped_page (a : float) (sequence : list float)
    (message prefix : string) :
  forallb is_finite sequence = false ->
  stops_at_a_term
    (st_header "Input Parameters" :: st_header "Generated Sequence"
     :: st_success message
     :: fst (rendering a sequence)
     ++ match snd (rendering a sequence) with
        | Ok _ => []
        | Raise e => [st_error_exception prefix e]
        end).
Proof.
  intros Hterms.
  destruct (forallb_false _ _ Hterms) as (x & Hin & Hx).
  destruct (format_number_raises x Hx) as [e0 He0].
  destruct (rendering_stops (fun e => e = OverflowError \/ e = ValueError)
              a sequence x e0 format_number_exception Hin He0)
    as (e & He & ->).
  cbn [fst snd].
  pose proof (show_terms_row_calls sequence) as Hrows.
  rewrite Forall_forall in Hrows.
  repeat split.
  - exists message. do 2 right. now left.
  - exists prefix, e. split; [| exact He].
    do 3 right. apply in_or_app. right. now left.
  - intros body [Hc | [Hc | [Hc | Hc]]]; try discriminate.
    apply in_app_or in Hc. destruct Hc as [Hc | [Hc | []]]; [| discriminate].
    exact (Hrows _ Hc).
  - intros label value [Hc | [Hc | [Hc | Hc]]]; try discriminate.
    apply in_app_or in Hc. destruct Hc as [Hc | [Hc | []]]; [| discriminate].
    apply Hrows in Hc. destruct label; cbn in Hc; try contradiction. eauto.
Qed.

(** X9. On floats, once the validation has passed and the generator has
    returned a sequence with a term that is not finite (an infinity or a
    NaN), the run stops in the rows of terms, in both programs: the
    success notice is shown and then the report of the [OverflowError]
    or [ValueError] of [int(term)], the sequence as text is never shown,
    and no metric other than those of terms is. *)
Theorem infinite_term_stops_page (w : appy.inputs float) (w' : app.inputs float)
    (sequence : list float) :
  forallb is_finite sequence = false ->
  (1 <= appy.num_terms w <= 1000 ->
   match appy.sequence_type w with
   | Arithmetic =>
       appy.generate_arithmetic_sequence (appy.first_term w)
         (appy.second_param w) (appy.num_terms w)
   | Geometric =>
       appy.generate_geometric_sequence (appy.first_term w)
         (appy.second_param w) (appy.num_terms w)
   end = Ok sequence ->
   stops_at_a_term (appy.main w))
  /\ (1 <= app.num_terms w' <= 1000 ->
      app.generate_arithmetic_sequence (app.first_term w')
        (app.common_difference w') (app.num_terms w') = Ok sequence ->
      stops_at_a_term (app.main w')).
Proof.
  intros Hterms. split.
  - intros Hn Hgen.
    destruct (appy_page_after_generation _ _ w sequence Hn Hgen)
      as (message & prefix & Hpage).
    unfold appy.main. rewrite Hpage. now apply stopped_page.
  - intros Hn Hgen.
    destruct (app_page_after_generation _ w' sequence Hn Hgen)
      as (message & prefix & Hpage).
    unfold app.main. rewrite Hpage. now apply stopped_page.
Qed.

Lemma infinite_term_stops_page_witness :
  forallb is_finite [of_int (10 ^ 308); S754_infinity false] = false
  /\ stops_at_a_term
       (appy.main {| appy.sequence_type := Arithmetic;
                     appy.first_term := of_int (10 ^ 308);
                     appy.second_param := of_int (10 ^ 308);
                     appy.num_terms := 2 |})
  /\ stops_at_a_term
       (app.main {| app.first_term := of_int (10 ^ 308);
                    app.common_difference := of_int (10 ^ 308);
                    app.num_terms := 2 |}).
Proof.
  assert (Hterms : forallb is_finite [of_int (10 ^ 308); S754_infinity false]
                   = false) by (vm_compute; reflexivity).
  destruct (infinite_term_stops_page
              {| appy.sequence_type := Arithmetic;
                 appy.first_term := of_int (10 ^ 308);
                 appy.second_param := of_int (10 ^ 308);
                 appy.num_terms := 2 |}
              {| app.first_term := of_int (10 ^ 308);
                 app.common_difference := of_int (10 ^ 308);
                 app.num_terms := 2 |}
              [of_int (10 ^ 308); S754_infinity false] Hterms)
    as (Happy & Happ).
  split; [exact Hterms |]. split.
  - apply Happy; [cbn; lia | vm_compute; reflexivity].
  - apply Happ; [cbn; lia | vm_compute; reflexivity].
Defined.

(** X10. On the calls that the model of [main] keeps, the two programs
    agree for an arithmetic sequence: the headers, the [st.error] of the
    validation, the success notice, the rows of terms, the sequence as
    text, the closing metrics and the report of an exception are made by
    [appy.main] with the arithmetic kind and by [app.main] in the same
    order and with the same contents, up to the wording of the success
    notice and of the report. The title, the texts, the formulas and the
    input widgets, which the model leaves out, are not compared. *)
Theorem mains_agree {T : Type} `{PyNumber T} (a d : T) (n : Z) :
  map without_wording
    (appy.main {| appy.sequence_type := Arithmetic; appy.first_term := a;
                  appy.second_param := d; appy.num_terms := n |})
  = map without_wording
      (app.main {| app.first_term := a; app.common_difference := d;
                   app.num_terms := n |}).
Proof.
  destruct (Z.le_gt_cases n 0) as [Hle | Hpos].
  - unfold appy.main, app.main.
    rewrite appy_rejects_nonpositive, app_rejects_nonpositive by exact Hle.
    reflexivity.
  - destruct (Z.le_gt_cases n 1000) as [Hmax | Habove].
    + destruct (appy_page_after_generation
                  appy.generate_arithmetic_sequence appy.generate_geometric_sequence
                  {| appy.sequence_type := Arithmetic; appy.first_term := a;
                     appy.second_param := d; appy.num_terms := n |}
                  (map (arithmetic_term a d) (range n)))
        as (message & prefix & Happy);
        [cbn; lia | apply arithmetic_as_map |].
      destruct (app_page_after_generation
                  app.generate_arithmetic_sequence
                  {| app.first_term := a; app.common_difference := d;
                     app.num_terms := n |}
                  (map (arithmetic_term a d) (range n)))
        as (message' & prefix' & Happ);
        [cbn; lia | apply app_arithmetic_as_map |].
      unfold appy.main, app.main. rewrite Happy, Happ.
      cbn [map without_wording appy.first_term app.first_term]. do 3 f_equal.
      rewrite !map_app. f_equal.
      now destruct (snd (rendering a (map (arithmetic_term a d) (range n)))).
    + unfold appy.main, app.main.
      rewrite appy_rejects_above, app_rejects_above by (cbn; lia).
      reflexivity.
Qed.

(** X11. The sum is shown like a term: when the formatting of a term
    would render the sum as [s], the "Sum of Terms" metric holds the text
    [s] or the [int] whose text is [s]; when it would raise, so does the
    computation of the metric, with the same exception. *)
Theorem sum_shown_like_a_term {T : Type} `{PyNumber T} (sequence_sum : T) :
  (forall s,
     appy.format_number sequence_sum = Ok s ->
     exists value,
       appy.sum_value sequence_sum = Ok value /\ value_text value = Some s)
  /\ (forall e,
        appy.format_number sequence_sum = Raise e ->
        appy.sum_value sequence_sum = Raise e)
  /\ app.sum_value sequence_sum = appy.sum_value sequence_sum.
Proof.
  split; [| split; [| reflexivity]].
  - intros s. unfold appy.format_number, appy.sum_value.
    destruct (py_int sequence_sum) as [k | e0]; cbn [bind]; [| discriminate].
    destruct (py_eqb_int sequence_sum k); cbn [negb]; intros [= <-];
      eexists; split; reflexivity.
  - intros e. unfold appy.format_number, appy.sum_value.
    destruct (py_int sequence_sum) as [k | e0]; cbn [bind];
      [| now intros [= <-]].
    destruct (py_eqb_int sequence_sum k); discriminate.
Qed.

(** ** Floats: a step that changes nothing *)

Lemma power_of_two_pow (a p : positive) :
  (Pos.iter xO 1 a ^ p = Pos.iter xO 1 (a * p))%positive.
Proof.
  induction p as [| p IH] using Pos.peano_ind.
  - now rewrite Pos.pow_1_r, Pos.mul_1_r.
  - rewrite Pos.pow_succ_r, IH, mul_power_of_two, <- Pos.iter_add.
    f_equal. lia.
Qed.

Lemma round_power_of_two (k : positive) :
  (52 <= k)%positive ->
  binary_round prec emax false (Pos.iter xO 1%positive k) (Z.neg k) = of_int 1.
Proof.
  intros Hk. unfold binary_round.
  rewrite digits2_pos_shift. cbn [digits2_pos].
  replace (Z.pos (1 + k) + Z.neg k) with 1 by lia.
  change (fexp prec emax 1) with (-52).
  unfold shl_align.
  destruct (-52 - Z.neg k) as [| d | d] eqn:Hd; try lia.
  - assert (k = 52%positive) as -> by lia. reflexivity.
  - assert (Hsplit : k = (d + 52)%positive) by lia.
    rewrite Hsplit, Pos.iter_add.
    apply round_shifted with (e := -52); [reflexivity | lia].
Qed.

Lemma pow_one (i : Z) : 0 <= i -> pow (of_int 1) i = Ok (of_int 1).
Proof.
  intros Hi. unfold pow.
  destruct (Z.eqb_spec i 0) as [-> | Hne]; [reflexivity |].
  change (of_int 1) with (S754_finite false (Pos.iter xO 1%positive 52) (-52)).
  cbv zeta. destruct (Z.ltb_spec 0 i) as [Hpos | Hneg]; [| lia].
  destruct i as [| p | p]; try lia.
  cbn [Z.abs Z.to_pos binary_normalize andb].
  rewrite power_of_two_pow.
  change (-52 * Z.pos p) with (Z.neg (52 * p)).
  rewrite round_power_of_two by lia. reflexivity.
Qed.

Lemma map_constant {A B : Type} (b : B) (l : list A) :
  map (fun _ => b) l = repeat b (List.length l).
Proof. induction l as [| x l IH]; cbn; [reflexivity |]. now rewrite IH. Qed.

(** X12. With the ratio 1.0, the case [main] prints the formula
    [n * a1] for, the geometric sequence of a finite float first term is
    constant: every one of its [max n 0] terms is the first term itself,
    and nothing is raised. *)
Theorem geometric_ratio_one (a : float) (n : Z) :
  is_float64 a = true ->
  appy.generate_geometric_sequence a (of_int 1) n = Ok (repeat a (Z.to_nat n)).
Proof.
  intros Ha. rewrite geometric_as_comprehension.
  rewrite (comprehension_map _ (fun _ => a)).
  - now rewrite map_constant, range_length.
  - intros i Hi. apply range_In in Hi. unfold geometric_term.
    change (py_pow (of_int 1) i) with (pow (of_int 1) i).
    rewrite pow_one by lia. cbn [bind].
    change (py_mul a (of_int 1)) with (mul a (of_int 1)).
    now rewrite mul_one_exact.
Qed.

Lemma geometric_ratio_one_witness :
  is_float64 (of_ratio 3 8) = true
  /\ appy.generate_geometric_sequence (of_ratio 3 8) (of_int 1) 4
     = Ok (repeat (of_ratio 3 8) (Z.to_nat 4)).
Proof.
  split; [reflexivity |]. apply (geometric_ratio_one (of_ratio 3 8) 4).
  reflexivity.
Defined.

Lemma small_of_int_finite (i : Z) :
  0 <= i < 1000 -> is_finite (of_int i) = true.
Proof.
  intros Hi.
  assert (Hall : forallb (fun j => is_finite (of_int j)) (range 1000) = true)
    by (vm_compute; reflexivity).
  rewrite forallb_forall in Hall. apply Hall. now apply range_In.
Qed.

Lemma add_product_with_zero (a x : float) (sign : bool) :
  is_finite a = true -> is_finite x = true ->
  eqb (add a (mul x (S754_zero sign))) a = true.
Proof.
  destruct a as [sa | sa | | sa ma ea]; try discriminate;
    destruct x as [sx | sx | | sx mx ex]; try discriminate; intros _ _;
    try (destruct sa, sx, sign; reflexivity).
  - change (add _ _) with (S754_finite sa ma ea). now apply eqb_refl.
  - change (add _ _) with (S754_finite sa ma ea). now apply eqb_refl.
Qed.

(** X13. With the common difference 0.0 (of either sign) the arithmetic
    sequence of a finite float first term is constant: for a valid
    [1 <= n <= 1000] every term equals ([==]) the first term. *)
Theorem arithmetic_difference_zero (a : float) (sign : bool) (n i : Z) :
  is_finite a = true -> 1 <= n <= 1000 -> 0 <= i < n ->
  exists sequence term,
    appy.generate_arithmetic_sequence a (S754_zero sign) n = Ok sequence
    /\ nth_error sequence (Z.to_nat i) = Some term
    /\ eqb term a = true.
Proof.
  intros Ha Hn Hi.
  exists (map (arithmetic_term a (S754_zero sign)) (range n)),
    (arithmetic_term a (S754_zero sign) i).
  rewrite arithmetic_as_map, arithmetic_nth by exact Hi.
  repeat split. apply add_product_with_zero; [exact Ha |].
  apply small_of_int_finite. lia.
Qed.

Lemma arithmetic_difference_zero_witness :
  is_finite (of_ratio (-7) 2) = true /\ 1 <= 5 <= 1000 /\ 0 <= 3 < 5
  /\ exists sequence term,
       appy.generate_arithmetic_sequence (of_ratio (-7) 2) (S754_zero true) 5
       = Ok sequence
       /\ nth_error sequence (Z.to_nat 3) = Some term
       /\ eqb term (of_ratio (-7) 2) = true.
Proof.
  split; [reflexivity |]. split; [lia |]. split; [lia |].
  apply (arithmetic_difference_zero (of_ratio (-7) 2) true 5 3);
    [reflexivity | lia | lia].
Defined.

(** ** What the page shows of the sequence *)

Lemma rendering_calls {T : Type} `{PyNumber T} (a : T) (sequence : list T)
    (parts : list string) (last : T) :
  Forall2 (fun x part => appy.format_number x = Ok part) sequence parts ->
  last_item sequence = Ok last ->
  rendering a sequence
  = (fst (appy.show_terms sequence)
     ++ [st_code ("[" ++ join ", " parts ++ "]");
         st_metric First_Term (number_value a);
         st_metric Last_Term (number_value last)]
     ++ match appy.sum_value (py_sum sequence) with
        | Ok value => [st_metric Sum_of_Terms value]
        | Raise _ => []
        end,
     match appy.sum_value (py_sum sequence) with
     | Ok _ => Ok tt
     | Raise e => Raise e
     end).
Proof.
  intros Hparts Hlast.
  assert (Hc : comprehension appy.format_number sequence = Ok parts).
  { clear Hlast. induction Hparts as [| x part l ps Hx _ IH]; cbn.
    - reflexivity.
    - now rewrite Hx, IH. }
  unfold rendering. rewrite (show_terms_calls sequence parts Hparts).
  unfold appy.sequence_str. rewrite Hc, Hlast. cbv zeta.
  destruct (appy.sum_value (py_sum sequence)) as [value | e];
    cbn [bind eval show page_bind fst]; reflexivity.
Qed.

Lemma show_terms_metrics {T : Type} `{PyNumber T} (sequence : list T)
    (parts : list string) :
  Forall2 (fun x part => appy.format_number x = Ok part) sequence parts ->
  term_metrics (fst (appy.show_terms sequence))
  = map (fun '(j, part) => term_metric j part) (enumerate parts).
Proof.
  intros Hparts.
  rewrite (show_terms_calls sequence parts Hparts). cbn [fst].
  unfold term_metrics at 1. rewrite filter_flat_map.
  rewrite (flat_map_ext _
             (fun k => map (fun '(j, part) => term_metric (0 + k * 10 + j) part)
                         (enumerate (firstn 10 (skipn (k * 10) parts))))).
  - rewrite <- (flat_map_map
                  (fun i => map (fun '(j, part) => term_metric (0 + i + j) part)
                              (enumerate (firstn 10 (skipn i parts))))
                  (fun k => (k * 10)%nat)).
    rewrite (slices_labels (fun j part => term_metric j part));
      [reflexivity |].
    rewrite <- (Forall2_length Hparts). apply range_step_covers.
  - intros k.
    apply (term_metrics_row
             (List.length (firstn 10 (skipn (k * 10) sequence)))
             (k * 10)
             (enumerate (firstn 10 (skipn (k * 10) parts)))).
Qed.

Ltac member_of_page Hrows :=
  let Hin := fresh "Hin" in
  cbn [In]; rewrite !in_app_iff; cbn [In]; split;
  [ intros Hin; decompose [or] Hin;
    try discriminate; try contradiction; try congruence;
    match goal with Hc : In _ _ |- _ => now apply Hrows in Hc end
  | intros ->; auto 10 ].

Lemma sequence_on_page {T : Type} `{PyNumber T} (a : T) (sequence : list T)
    (parts : list string) (last : T) (message prefix : string) :
  Forall2 (fun x part => appy.format_number x = Ok part) sequence parts ->
  last_item sequence = Ok last ->
  shows_sequence a last parts
    (st_header "Input Parameters" :: st_header "Generated Sequence"
     :: st_success message
     :: fst (rendering a sequence)
     ++ match snd (rendering a sequence) with
        | Ok _ => []
        | Raise e => [st_error_exception prefix e]
        end).
Proof.
  intros Hparts Hlast.
  rewrite (rendering_calls a sequence parts last Hparts Hlast). cbn [fst snd].
  pose proof (show_terms_row_calls sequence) as Hrows.
  rewrite Forall_forall in Hrows.
  pose proof (show_terms_metrics sequence parts Hparts) as Hmetrics.
  set (rows := fst (appy.show_terms sequence)) in *.
  unfold shows_sequence.
  destruct (appy.sum_value (py_sum sequence)) as [value | e];
    (split; [| split; [| split]]).
  - unfold term_metrics in *. cbn [filter]. rewrite !filter_app.
    cbn [filter]. rewrite Hmetrics. now rewrite !app_nil_r.
  - intros body. member_of_page Hrows.
  - intros v. member_of_page Hrows.
  - intros v. member_of_page Hrows.
  - unfold term_metrics in *. cbn [filter]. rewrite !filter_app.
    cbn [filter]. rewrite Hmetrics. now rewrite !app_nil_r.
  - intros body. member_of_page Hrows.
  - intros v. member_of_page Hrows.
  - intros v. member_of_page Hrows.
Qed.

(** X14. In both programs, once the validation has passed and the
    generator has returned a sequence with a last element whose terms can
    all be formatted, the page shows the sequence, whatever becomes of
    the sum: the metrics of the terms are their renderings labelled
    1, 2, ... in order, [st.code] is called with the bracketed
    comma-separated list of the very renderings the rows show and with
    nothing else, and the "First Term" and "Last Term" metrics hold the
    first term as entered and the last element of the sequence. *)
Theorem sequence_shown {T : Type} `{PyNumber T}
    (generate_arithmetic generate_geometric : T -> T -> Z -> result (list T))
    (w : appy.inputs T) (w' : app.inputs T) (sequence : list T)
    (parts : list string) (last : T) :
  Forall2 (fun x part => appy.format_number x = Ok part) sequence parts ->
  last_item sequence = Ok last ->
  (1 <= appy.num_terms w <= 1000 ->
   match appy.sequence_type w with
   | Arithmetic =>
       generate_arithmetic (appy.first_term w) (appy.second_param w)
         (appy.num_terms w)
   | Geometric =>
       generate_geometric (appy.first_term w) (appy.second_param w)
         (appy.num_terms w)
   end = Ok sequence ->
   shows_sequence (appy.first_term w) last parts
     (appy.main_with generate_arithmetic generate_geometric w))
  /\ (1 <= app.num_terms w' <= 1000 ->
      generate_arithmetic (app.first_term w') (app.common_difference w')
        (app.num_terms w') = Ok sequence ->
      shows_sequence (app.first_term w') last parts
        (app.main_with generate_arithmetic w')).
Proof.
  intros Hparts Hlast. split.
  - intros Hn Hgen.
    destruct (appy_page_after_generation _ _ w sequence Hn Hgen)
      as (message & prefix & Hpage).
    rewrite Hpage. now apply sequence_on_page.
  - intros Hn Hgen.
    destruct (app_page_after_generation _ w' sequence Hn Hgen)
      as (message & prefix & Hpage).
    rewrite Hpage. now apply sequence_on_page.
Qed.

Lemma sequence_shown_witness :
  Forall2 (fun x part => appy.format_number x = Ok part)
    [of_int 3; of_ratio 3 2] ["3"; "1.50"]%string
  /\ last_item [of_int 3; of_ratio 3 2] = Ok (of_ratio 3 2)
  /\ shows_sequence (of_int 3) (of_ratio 3 2) ["3"; "1.50"]%string
       (appy.main {| appy.sequence_type := Geometric; appy.first_term := of_int 3;
                     appy.second_param := of_ratio 1 2; appy.num_terms := 2 |})
  /\ shows_sequence (of_int 3) (of_ratio 3 2) ["3"; "1.50"]%string
       (app.main {| app.first_term := of_int 3;
                    app.common_difference := of_ratio (-3) 2;
                    app.num_terms := 2 |}).
Proof.
  assert (Hparts : Forall2 (fun x part => appy.format_number x = Ok part)
                     [of_int 3; of_ratio 3 2] ["3"; "1.50"]%string)
    by (repeat constructor).
  assert (Hlast : last_item [of_int 3; of_ratio 3 2] = Ok (of_ratio 3 2))
    by reflexivity.
  split; [exact Hparts |]. split; [exact Hlast |]. split.
  - destruct (sequence_shown
                appy.generate_arithmetic_sequence appy.generate_geometric_sequence
                {| appy.sequence_type := Geometric; appy.first_term := of_int 3;
                   appy.second_param := of_ratio 1 2; appy.num_terms := 2 |}
                {| app.first_term := of_int 3;
                   app.common_difference := of_ratio (-3) 2;
                   app.num_terms := 2 |}
                [of_int 3; of_ratio 3 2] ["3"; "1.50"]%string (of_ratio 3 2)
                Hparts Hlast) as (Happy & _).
    apply Happy; [cbn; lia | vm_compute; reflexivity].
  - destruct (sequence_shown
                app.generate_arithmetic_sequence appy.generate_geometric_sequence
                {| appy.sequence_type := Geometric; appy.first_term := of_int 3;
                   appy.second_param := of_ratio 1 2; appy.num_terms := 2 |}
                {| app.first_term := of_int 3;
                   app.common_difference := of_ratio (-3) 2;
                   app.num_terms := 2 |}
                [of_int 3; of_ratio 3 2] ["3"; "1.50"]%string (of_ratio 3 2)
                Hparts Hlast) as (_ & Happ).
    apply Happ; [cbn; lia | vm_compute; reflexivity].
Defined.
